(** * yamlconf: a versioned configuration manager kept in sync with a file

    Shallow embedding of [yamlconf.go] (the [Manager], [Start], the update
    loop, [copy]) and of the disk half of the package ([reloadFromDisk],
    [saveToDiskAndUpdate], [writeToDisk], [hasChangedOnDisk]).

    Go values are embedded as follows.
    - [int] is a 64-bit two's complement integer: a [Z] with the wrap-around
      of [+] written out ([GoInt.add]).
    - A [Config] is an interface value holding a pointer to a struct.  The
      structs live in a heap ([heap], a list indexed by address); interface
      values are [option ptr], [None] being the nil interface.  Methods
      mutate the pointee in place.
    - [os.FileInfo] values are pointers too: every successful [os.Stat]
      allocates a new [fileStat] object and returns its address, and [==] on
      two interface values holding pointers is address equality.
    - Go errors are ordinary results ([option error]); a nil dereference or
      a call through a nil function value panics ([None] in the monad [M]).
    - The file system, the YAML codec, [deepcopy.Copy] and
      [reflect.DeepEqual] on the pointees are collaborators of the package:
      they are the fields of the class [Platform].  Every call to the file
      system is recorded in the [trace], as are the values sent on the
      manager's channels. *)

From Stdlib Require Import ZArith Lia.
From Stdlib.Strings Require Import Byte.
From stdpp Require Import base list strings.

(** ** Go's [int] *)

Module GoInt.
Local Open Scope Z_scope.

Definition min_int : Z := - 2 ^ 63.
Definition max_int : Z := 2 ^ 63 - 1.

Definition wrap (z : Z) : Z := (z + 2 ^ 63) mod 2 ^ 64 - 2 ^ 63.

Definition add (a b : Z) : Z := wrap (a + b).
End GoInt.

(** ** Errors

    Every [fmt.Errorf] of the package is a constructor that keeps the values
    formatted into the message; [ErrExternal] stands for the errors made by
    collaborators (the operating system, the codec, the copier, a delta
    function). *)

Inductive error : Type :=
| ErrExternal (msg : string)
| ErrEmptyConfigRequired
| ErrFilePathRequired
| ErrStatConfig (path : string) (cause : error)
| ErrReadConfig (path : string) (cause : error)
| ErrUnmarshal (path : string) (cause : error)
| ErrVersionMismatch (expected found : Z)
| ErrMarshal (cause : error)
| ErrWriteFile (path : string) (cause : error)
| ErrStatFile (path : string) (cause : error)
| ErrInitialUpdate (cause : error).

(** ** The [Config] interface *)

Class Config (C : Type) := {
  GetVersion : C -> Z;
  SetVersion : Z -> C -> C;
  ApplyDefaults : C -> C;
}.

(** What a struct with a version field gives: the laws of a field accessor. *)
Class ConfigLaws (C : Type) `{Config C} : Prop := {
  GetVersion_SetVersion : forall v c, GetVersion (SetVersion v c) = v;
  SetVersion_SetVersion : forall v u c, SetVersion v (SetVersion u c) = SetVersion v c;
  SetVersion_GetVersion : forall c, SetVersion (GetVersion c) c = c;
}.

(** ** Collaborators *)

(** An address in one of the two heaps. *)
Abbreviation ptr := nat (only parsing).

(** The part of [os.fileStat] the package reads. *)
Record FileStat := mkFileStat {
  Name : string;
  Size : Z;
  ModTime : Z;
}.

Class Platform (C Disk : Type) := {
  os_Stat : string -> Disk -> (error + FileStat) * Disk;
  ioutil_ReadFile : string -> Disk -> (error + list byte) * Disk;
  ioutil_WriteFile : string -> list byte -> Disk -> option error * Disk;
  yaml_Marshal : C -> error + list byte;
  yaml_Unmarshal : list byte -> C -> C * option error;
  deepcopy_Copy : C -> option C -> C * option error;
  deepValueEqual : C -> C -> bool;
}.

(** What the manager does that the outside can see. *)
Inductive Event : Type :=
| EvStat (path : string)
| EvReadFile (path : string)
| EvWriteFile (path : string) (data : list byte)
| EvLogError (e : error)
| EvReply (e : option error)
| EvPublish (c : option ptr).

Section Yamlconf.
Context {C Disk : Type} {ops : Config C} {plat : Platform C Disk}.

(** ** [type Manager struct] *)

Record Manager := mkManager {
  EmptyConfig : option C;
  FilePath : string;
  FilePollInterval : Z;
  HttpURL : string;
  HttpCert : string;
  HttpPollInterval : Z;
  RandomizeHttpPollInterval : bool;
  cfg : option ptr;
  fileInfo : option ptr;
}.

Definition with_cfg (p : option ptr) (m : Manager) : Manager :=
  mkManager (EmptyConfig m) (FilePath m) (FilePollInterval m) (HttpURL m)
    (HttpCert m) (HttpPollInterval m) (RandomizeHttpPollInterval m)
    p (fileInfo m).

Definition with_fileInfo (i : option ptr) (m : Manager) : Manager :=
  mkManager (EmptyConfig m) (FilePath m) (FilePollInterval m) (HttpURL m)
    (HttpCert m) (HttpPollInterval m) (RandomizeHttpPollInterval m)
    (cfg m) i.

Definition with_intervals (file http : Z) (m : Manager) : Manager :=
  mkManager (EmptyConfig m) (FilePath m) file (HttpURL m)
    (HttpCert m) http (RandomizeHttpPollInterval m)
    (cfg m) (fileInfo m).

(** ** Program state and the monad of the package's methods *)

Record State := mkState {
  mgr : Manager;
  heap : list C;
  infos : list FileStat;
  disk : Disk;
  trace : list Event;
}.

Definition M (A : Type) : Type := State -> option (A * State).

#[global] Instance M_ret : MRet M := fun A a s => Some (a, s).
#[global] Instance M_bind : MBind M := fun A B f x s =>
  match x s with
  | Some (a, s') => f a s'
  | None => None
  end.

Definition panic {A} : M A := fun _ => None.

Definition this : M Manager := fun s => Some (mgr s, s).

Definition set_mgr (f : Manager -> Manager) : M unit := fun s =>
  Some (tt, mkState (f (mgr s)) (heap s) (infos s) (disk s) (trace s)).

Definition emit (e : Event) : M unit := fun s =>
  Some (tt, mkState (mgr s) (heap s) (infos s) (disk s) (trace s ++ [e])).

Definition load (p : ptr) : M C := fun s =>
  match heap s !! p with
  | Some c => Some (c, s)
  | None => None
  end.

Definition store (p : ptr) (c : C) : M unit := fun s =>
  match heap s !! p with
  | Some _ => Some (tt, mkState (mgr s) (<[p:=c]> (heap s)) (infos s) (disk s) (trace s))
  | None => None
  end.

(** Reading a method of an [os.FileInfo] value. *)
Definition info (i : ptr) : M FileStat := fun s =>
  match infos s !! i with
  | Some st => Some (st, s)
  | None => None
  end.

Definition alloc (c : C) : M ptr := fun s =>
  Some (length (heap s), mkState (mgr s) (heap s ++ [c]) (infos s) (disk s) (trace s)).

(** Method calls through a [Config] interface value. *)
Definition cfg_GetVersion (p : ptr) : M Z :=
  c ← load p; mret (GetVersion c).

Definition cfg_SetVersion (p : ptr) (version : Z) : M unit :=
  c ← load p; store p (SetVersion version c).

Definition cfg_ApplyDefaults (p : ptr) : M unit :=
  c ← load p; store p (ApplyDefaults c).

(** [m.EmptyConfig()]: the factory returns a new object each time. *)
Definition call_EmptyConfig : M ptr := fun s =>
  match EmptyConfig (mgr s) with
  | Some c => alloc c s
  | None => None
  end.

(** ** Calls to the collaborators *)

Definition stat (path : string) : M (error + ptr) := fun s =>
  let '(r, d) := os_Stat path (disk s) in
  let tr := trace s ++ [EvStat path] in
  match r with
  | inl err => Some (inl err, mkState (mgr s) (heap s) (infos s) d tr)
  | inr st =>
      Some (inr (length (infos s)),
            mkState (mgr s) (heap s) (infos s ++ [st]) d tr)
  end.

Definition readFile (path : string) : M (error + list byte) := fun s =>
  let '(r, d) := ioutil_ReadFile path (disk s) in
  Some (r, mkState (mgr s) (heap s) (infos s) d (trace s ++ [EvReadFile path])).

Definition writeFile (path : string) (data : list byte) : M (option error) := fun s =>
  let '(r, d) := ioutil_WriteFile path data (disk s) in
  Some (r, mkState (mgr s) (heap s) (infos s) d (trace s ++ [EvWriteFile path data])).

Definition unmarshal (data : list byte) (p : ptr) : M (option error) :=
  c ← load p;
  let '(c', err) := yaml_Unmarshal data c in
  _ ← store p c';
  mret err.

(** [==] on two interface values holding pointers. *)
Definition iface_eqb (a b : option ptr) : bool :=
  match a, b with
  | None, None => true
  | Some p, Some q => Nat.eqb p q
  | _, _ => false
  end.

(** [reflect.DeepEqual] on two [Config] interface values. *)
Definition reflect_DeepEqual (a b : option ptr) : M bool :=
  match a, b with
  | None, None => mret true
  | Some p, Some q =>
      if Nat.eqb p q then mret true
      else ca ← load p; cb ← load q; mret (deepValueEqual ca cb)
  | _, _ => mret false
  end.

(** ** The disk half *)

Definition writeToDisk (c : ptr) : M (option error) :=
  v ← load c;
  match yaml_Marshal v with
  | inl err => mret (Some (ErrMarshal err))
  | inr bytes =>
      m ← this;
      err ← writeFile (FilePath m) bytes;
      match err with
      | Some err => mret (Some (ErrWriteFile (FilePath m) err))
      | None =>
          r ← stat (FilePath m);
          match r with
          | inl err =>
              _ ← set_mgr (with_fileInfo None);
              mret (Some (ErrStatFile (FilePath m) err))
          | inr fi =>
              _ ← set_mgr (with_fileInfo (Some fi));
              mret None
          end
      end
  end.

Definition reloadFromDisk : M (bool * option error) :=
  c ← call_EmptyConfig;
  m ← this;
  r ← stat (FilePath m);
  match r with
  | inl err => mret (false, Some (ErrStatConfig (FilePath m) err))
  | inr fi =>
      if iface_eqb (fileInfo m) (Some fi) then mret (false, None)
      else
        r ← readFile (FilePath m);
        match r with
        | inl err => mret (false, Some (ErrReadConfig (FilePath m) err))
        | inr bytes =>
            err ← unmarshal bytes c;
            match err with
            | Some err => mret (false, Some (ErrUnmarshal (FilePath m) err))
            | None =>
                mismatch ← match cfg m with
                           | None => mret false
                           | Some p =>
                               v ← cfg_GetVersion p;
                               v' ← cfg_GetVersion c;
                               mret (negb (Z.eqb v v'))
                           end;
                if (mismatch : bool) then
                  match cfg m with
                  | None => panic
                  | Some p =>
                      _ ← writeToDisk p;
                      v ← cfg_GetVersion p;
                      v' ← cfg_GetVersion c;
                      mret (false, Some (ErrVersionMismatch v v'))
                  end
                else
                  same ← reflect_DeepEqual (cfg m) (Some c);
                  if (same : bool) then mret (false, None)
                  else
                    _ ← set_mgr (fun m => with_fileInfo (Some fi) (with_cfg (Some c) m));
                    mret (true, None)
            end
        end
  end.

Definition loadFromDisk : M (option error) :=
  '(_, err) ← reloadFromDisk; mret err.

Definition saveToDiskAndUpdate (updated : ptr) : M (bool * option error) :=
  _ ← cfg_ApplyDefaults updated;
  m ← this;
  currentVersion ← match cfg m with
                   | Some p =>
                       v ← cfg_GetVersion p;
                       _ ← cfg_SetVersion p 0;
                       mret v
                   | None => mret 0%Z
                   end;
  _ ← cfg_SetVersion updated 0;
  same ← reflect_DeepEqual (cfg m) (Some updated);
  if (same : bool) then
    _ ← match cfg m with
        | Some p => cfg_SetVersion p currentVersion
        | None => panic
        end;
    mret (false, None)
  else
    _ ← cfg_SetVersion updated (GoInt.add currentVersion 1);
    err ← writeToDisk updated;
    match err with
    | Some err => mret (false, Some err)
    | None =>
        _ ← set_mgr (with_cfg (Some updated));
        mret (true, None)
    end.

(** [hasChangedOnDisk] stats the file under the name recorded in the
    fingerprint and compares size and modification time. *)
Definition hasChangedOnDisk : M bool :=
  m ← this;
  match fileInfo m with
  | None => panic
  | Some i =>
      old ← info i;
      r ← stat (Name old);
      match r with
      | inl _ => mret false
      | inr j =>
          nextFileInfo ← info j;
          mret (negb (Z.eqb (Size nextFileInfo) (Size old))
                || negb (Z.eqb (ModTime nextFileInfo) (ModTime old)))
      end
  end.

(** ** [yamlconf.go] *)

(** [copy]: a new object from the factory, filled by [deepcopy.Copy]. *)
Definition copy (orig : option ptr) : M (ptr * option error) :=
  copied ← call_EmptyConfig;
  src ← match orig with
        | Some p => c ← load p; mret (Some c)
        | None => mret None
        end;
  dst ← load copied;
  let '(dst', err) := deepcopy_Copy dst src in
  _ ← store copied dst';
  mret (copied, err).

(** A delta function receives a [Config], may change it in place and
    reports an error or nil.  This is a function that returns; a nil
    function and a function that panics are values of [func] below. *)
Record delta := mkDelta {
  deltaFn : C -> C * option error;
}.

Definition call_deltaFn (d : delta) (p : ptr) : M (option error) :=
  c ← load p;
  let '(c', err) := deltaFn d c in
  _ ← store p c';
  mret err.

(** [m.nextCfgCh <- m.cfg] *)
Definition publish : M unit :=
  m ← this; emit (EvPublish (cfg m)).

Definition second : Z := 1000000000.
Definition minute : Z := 60 * second.

Definition default_intervals (m : Manager) : Manager :=
  with_intervals
    (if Z.eqb (FilePollInterval m) 0 then second else FilePollInterval m)
    (if Z.eqb (HttpPollInterval m) 0 then minute else HttpPollInterval m)
    m.

(** [Start], up to and including the first send of the goroutine it
    launches. *)
Definition Start : M (option error) :=
  m ← this;
  match EmptyConfig m with
  | None => mret (Some ErrEmptyConfigRequired)
  | Some _ =>
      if String.eqb (FilePath m) "" then mret (Some ErrFilePathRequired)
      else
        _ ← set_mgr default_intervals;
        err ← loadFromDisk;
        match err with
        | Some _ =>
            c ← call_EmptyConfig;
            _ ← cfg_ApplyDefaults c;
            '(_, err) ← saveToDiskAndUpdate c;
            match err with
            | Some err => mret (Some err)
            | None => _ ← publish; mret None
            end
        | None =>
            m ← this;
            '(copied, err) ← copy (cfg m);
            err ← match err with
                  | None => '(_, err) ← saveToDiskAndUpdate copied; mret err
                  | Some err => mret (Some err)
                  end;
            match err with
            | Some err => mret (Some (ErrInitialUpdate err))
            | None => _ ← publish; mret None
            end
        end
  end.

(** What the [select] of the update loop can receive. *)
Inductive Request : Type :=
| Delta (d : delta)
| FilePoll
| HttpPoll.

(** One iteration of the [for] loop of [processUpdates]. *)
Definition serve (r : Request) : M unit :=
  match r with
  | Delta d =>
      m ← this;
      '(updated, _) ← copy (cfg m);
      err ← call_deltaFn d updated;
      match err with
      | Some err => emit (EvReply (Some err))
      | None =>
          '(changed, err) ← saveToDiskAndUpdate updated;
          _ ← emit (EvReply err);
          match err with
          | Some _ => mret tt
          | None => if (changed : bool) then publish else mret tt
          end
      end
  | FilePoll =>
      '(changed, err) ← reloadFromDisk;
      match err with
      | Some err => emit (EvLogError err)
      | None => if (changed : bool) then publish else mret tt
      end
  | HttpPoll => mret tt
  end.

Fixpoint processUpdates (rs : list Request) : M unit :=
  match rs with
  | [] => mret tt
  | r :: rs => _ ← serve r; processUpdates rs
  end.

(** ** Vocabulary of the statements *)

(** The fingerprint held by the manager was returned by an earlier
    [os.Stat]: its address is below the next one to be given out. *)
Definition fileInfo_allocated (s : State) : Prop :=
  match fileInfo (mgr s) with
  | Some i => i < length (infos s)
  | None => True
  end.

(** The state in which [reloadFromDisk] reaches version reconciliation:
    the file was statted ([st]), read and decoded into a new object
    holding [decoded]. *)
Definition decoded_state (s : State) (st : FileStat) (d : Disk) (decoded : C) : State :=
  mkState (mgr s) (heap s ++ [decoded]) (infos s ++ [st]) d
    (trace s ++ [EvStat (FilePath (mgr s)); EvReadFile (FilePath (mgr s))]).

(** [saveToDiskAndUpdate updated] finds the candidate [u] at [updated]
    different from the authoritative configuration, whose version is
    [current] (0 when there is none). *)
Definition differs (s : State) (updated : ptr) (u : C) (current : Z) : Prop :=
  match cfg (mgr s) with
  | None => current = 0%Z
  | Some p =>
      p <> updated /\
      exists c, heap s !! p = Some c /\ current = GetVersion c /\
        deepValueEqual (SetVersion 0 c) (SetVersion 0 (ApplyDefaults u)) = false
  end.

(** The candidate as [saveToDiskAndUpdate] writes it. *)
Definition committed (u : C) (current : Z) : C :=
  SetVersion (GoInt.add current 1) (SetVersion 0 (ApplyDefaults u)).

(** How [saveToDiskAndUpdate updated] ends once it has called
    [writeToDisk]. *)
Definition save_result (updated : ptr) (r : option (option error * State))
  : option ((bool * option error) * State) :=
  match r with
  | Some (Some err, s') => Some ((false, Some err), s')
  | Some (None, s') =>
      Some ((true, None),
            mkState (with_cfg (Some updated) (mgr s')) (heap s') (infos s')
              (disk s') (trace s'))
  | None => None
  end.

(** [GetVersion] of the configuration at an address. *)
Definition version_at (s : State) (p : ptr) : option Z :=
  GetVersion <$> heap s !! p.

(** The authoritative pointer, if any, points into the heap. *)
Definition cfg_allocated (s : State) : Prop :=
  match cfg (mgr s) with
  | Some p => is_Some (heap s !! p)
  | None => True
  end.

(** The state in which [Start] begins its initial load. *)
Definition started (s : State) : State :=
  mkState (default_intervals (mgr s)) (heap s) (infos s) (disk s) (trace s).

(** The invariant of the update loop: the factory is set, there is an
    authoritative configuration, and the pointers of the manager point into
    the heaps. *)
Definition running (s : State) : Prop :=
  is_Some (EmptyConfig (mgr s))
  /\ (exists p, cfg (mgr s) = Some p /\ is_Some (heap s !! p))
  /\ fileInfo_allocated s.

(** ** [nextHttpPoll]

    [now] is what [time.Now()] returns and the result is the deadline, both
    in nanoseconds; [draw] is the number the generator behind [rand.Int63n]
    produces.  [rand.Int63n n] panics unless [n] is positive and returns a
    number from 0 up to [n - 1]; [/] on [int64] truncates toward zero. *)
Definition rand_Int63n (draw n : Z) : option Z :=
  if Z.ltb 0 n then Some (draw mod n)%Z else None.

Definition nextHttpPoll (now draw : Z) (m : Manager) : option Z :=
  let sleepTime := HttpPollInterval m in
  sleepTime ← (if RandomizeHttpPollInterval m
               then r ← rand_Int63n draw sleepTime;
                    Some (GoInt.add (Z.quot sleepTime 2) r)
               else Some sleepTime);
  Some (now + sleepTime)%Z.

(** ** The update loop with its clock

    [processUpdates] computes the deadline of the next http poll before its
    first iteration and again in each iteration that serves the http timer;
    [processUpdates] above is the sequence of iterations without that
    deadline.  A step of the loop is the request its [select] receives
    together with what [time.Now()] and the generator return should the
    iteration ask for them.  Which request the [select] receives is left to
    the environment. *)
Definition call_nextHttpPoll (now draw : Z) : M Z := fun s =>
  match nextHttpPoll now draw (mgr s) with
  | Some deadline => Some (deadline, s)
  | None => None
  end.

Definition Step : Type := Request * (Z * Z).

Definition iteration (nextHttp : Z) (st : Step) : M Z :=
  let '(r, (now, draw)) := st in
  _ ← serve r;
  match r with
  | HttpPoll => call_nextHttpPoll now draw
  | _ => mret nextHttp
  end.

Fixpoint iterations (nextHttp : Z) (steps : list Step) : M Z :=
  match steps with
  | [] => mret nextHttp
  | st :: steps => nextHttp ← iteration nextHttp st; iterations nextHttp steps
  end.

(** [processUpdates] from its first line; the result is the deadline it
    holds when the steps are served. *)
Definition processUpdates_clocked (now draw : Z) (steps : list Step) : M Z :=
  nextHttp ← call_nextHttpPoll now draw; iterations nextHttp steps.

Definition requests (steps : list Step) : list Request := map fst steps.

(** The fields of the manager that its user sets: all but the
    authoritative pointer and the fingerprint. *)
Definition settings (m : Manager) : Manager :=
  with_fileInfo None (with_cfg None m).

(** A computation that returns leaves the settings as they were. *)
Definition keeps_settings {A} (x : M A) : Prop :=
  forall s a s', x s = Some (a, s') -> settings (mgr s') = settings (mgr s).

(** [rand.Int63n] gets a positive argument. *)
Definition poll_interval_ok (m : Manager) : Prop :=
  RandomizeHttpPollInterval m = true -> (0 < HttpPollInterval m)%Z.

(** ** [Update] with any Go function

    [Update] takes a value of type [func(cfg Config) error] and the loop
    calls it without a check.  Such a value is nil, or a function whose call
    on a given configuration panics or returns; a [delta] above is a function
    that returns on every configuration.  Calling nil panics. *)
Inductive func : Type :=
| nil_func
| go_func (body : C -> option (C * option error)).

Definition call_func (f : func) (p : ptr) : M (option error) :=
  match f with
  | nil_func => panic
  | go_func body =>
      c ← load p;
      match body c with
      | None => panic
      | Some (c', err) => _ ← store p c'; mret err
      end
  end.


(** What the [select] of the loop receives, with the function of an
    [Update] as its caller passed it. *)
Inductive Call : Type :=
| Update (f : func)
| FileTimer
| HttpTimer.

(** One iteration of the [for] loop of [processUpdates] on a call. *)
Definition serve_call (c : Call) : M unit :=
  match c with
  | Update f =>
      m ← this;
      '(updated, _) ← copy (cfg m);
      err ← call_func f updated;
      match err with
      | Some err => emit (EvReply (Some err))
      | None =>
          '(changed, err) ← saveToDiskAndUpdate updated;
          _ ← emit (EvReply err);
          match err with
          | Some _ => mret tt
          | None => if (changed : bool) then publish else mret tt
          end
      end
  | FileTimer => serve FilePoll
  | HttpTimer => serve HttpPoll
  end.

Definition TimedCall : Type := Call * (Z * Z).

Definition iteration_on (nextHttp : Z) (tc : TimedCall) : M Z :=
  let '(c, (now, draw)) := tc in
  _ ← serve_call c;
  match c with
  | HttpTimer => call_nextHttpPoll now draw
  | _ => mret nextHttp
  end.

Fixpoint iterations_on (nextHttp : Z) (calls : list TimedCall) : M Z :=
  match calls with
  | [] => mret nextHttp
  | tc :: calls => nextHttp ← iteration_on nextHttp tc; iterations_on nextHttp calls
  end.








(** ** Reading a trace *)

Definition is_reply (ev : Event) : bool :=
  match ev with
  | EvReply _ => true
  | _ => false
  end.

Definition is_publish (ev : Event) : bool :=
  match ev with
  | EvPublish _ => true
  | _ => false
  end.

Definition is_write (ev : Event) : bool :=
  match ev with
  | EvWriteFile _ _ => true
  | _ => false
  end.

Definition is_file_event (ev : Event) : bool :=
  match ev with
  | EvStat _ | EvReadFile _ | EvWriteFile _ _ => true
  | _ => false
  end.

Fixpoint count (f : Event -> bool) (t : list Event) : nat :=
  match t with
  | [] => 0
  | ev :: t => (if f ev then 1 else 0) + count f t
  end.

Definition is_delta (r : Request) : bool :=
  match r with
  | Delta _ => true
  | _ => false
  end.

Fixpoint deltas (rs : list Request) : nat :=
  match rs with
  | [] => 0
  | r :: rs => (if is_delta r then 1 else 0) + deltas rs
  end.

End Yamlconf.

(** ** The configuration of the package's test, and a platform to run it on *)

Module TestCfg.

Definition FIXED_I : Z := 55.

Record Nested := mkNested {
  S : string;
  I : Z;
}.

Record t := mk {
  Version : Z;
  N : option Nested;
}.

#[global] Instance Nested_eq_dec : EqDecision Nested.
Proof. solve_decision. Defined.

#[global] Instance eq_dec : EqDecision t.
Proof. solve_decision. Defined.

Definition applyDefaults (c : t) : t :=
  let n := match N c with
           | None => mkNested "" 0
           | Some n => n
           end in
  let n := if Z.eqb (I n) 0 then mkNested (S n) FIXED_I else n in
  mk (Version c) (Some n).

#[global] Instance config : Config t := {|
  GetVersion := Version;
  SetVersion := fun version c => mk version (N c);
  ApplyDefaults := applyDefaults;
|}.

(** [&TestCfg{}] *)
Definition empty : t := mk 0 None.

End TestCfg.

(** A file system with one directory, a clock, and a switch that makes
    every write fail; a codec for [TestCfg.t]; a copier that copies unless
    it is told to fail. *)
Module Sim.

Record File := mkFile {
  content : list byte;
  mtime : Z;
}.

Record SimDisk := mkDisk {
  files : list (string * File);
  now : Z;
  readOnly : bool;
}.

Fixpoint find (path : string) (fs : list (string * File)) : option File :=
  match fs with
  | [] => None
  | (name, f) :: fs => if String.eqb name path then Some f else find path fs
  end.

Fixpoint put (path : string) (f : File) (fs : list (string * File)) : list (string * File) :=
  match fs with
  | [] => [(path, f)]
  | (name, g) :: fs =>
      if String.eqb name path then (name, f) :: fs else (name, g) :: put path f fs
  end.

Definition Stat (path : string) (d : SimDisk) : (error + FileStat) * SimDisk :=
  match find path (files d) with
  | Some f => (inr (mkFileStat path (Z.of_nat (length (content f))) (mtime f)), d)
  | None => (inl (ErrExternal "no such file or directory"), d)
  end.

Definition ReadFile (path : string) (d : SimDisk) : (error + list byte) * SimDisk :=
  match find path (files d) with
  | Some f => (inr (content f), d)
  | None => (inl (ErrExternal "no such file or directory"), d)
  end.

Definition WriteFile (path : string) (data : list byte) (d : SimDisk) : option error * SimDisk :=
  if readOnly d then (Some (ErrExternal "read-only file system"), d)
  else (None, mkDisk (put path (mkFile data (now d)) (files d)) (now d + 1) false).

(** The codec: the version as eight bytes, a byte telling whether [N] is
    nil, then [I] as eight bytes and [S] as the rest. *)
Definition byte_of_Z (z : Z) : byte :=
  match Byte.of_N (Z.to_N (z mod 256)) with
  | Some b => b
  | None => x00
  end.

Definition int_to_bytes (z : Z) : list byte :=
  map (fun i => byte_of_Z (z / 256 ^ Z.of_nat i)) (seq 0 8).

Fixpoint le_to_Z (bs : list byte) : Z :=
  match bs with
  | [] => 0
  | b :: bs => Z.of_N (Byte.to_N b) + 256 * le_to_Z bs
  end.

Definition int_of_bytes (bs : list byte) : Z := GoInt.wrap (le_to_Z bs).

Definition Marshal (c : TestCfg.t) : error + list byte :=
  inr (int_to_bytes (TestCfg.Version c) ++
       match TestCfg.N c with
       | None => [x00]
       | Some n =>
           x01 :: int_to_bytes (TestCfg.I n) ++ String.list_byte_of_string (TestCfg.S n)
       end).

Definition Unmarshal (data : list byte) (c : TestCfg.t) : TestCfg.t * option error :=
  let bad := (c, Some (ErrExternal "cannot unmarshal")) in
  if Nat.ltb (length data) 9 then bad
  else
    let version := int_of_bytes (take 8 data) in
    match drop 8 data with
    | x00 :: [] => (TestCfg.mk version None, None)
    | x01 :: rest =>
        if Nat.ltb (length rest) 8 then bad
        else
          (TestCfg.mk version
             (Some (TestCfg.mkNested (String.string_of_list_byte (drop 8 rest))
                      (int_of_bytes (take 8 rest)))),
           None)
    | _ => bad
    end.

Definition Copy (fails : bool) (dst : TestCfg.t) (src : option TestCfg.t) : TestCfg.t * option error :=
  match src with
  | None => (dst, Some (ErrExternal "src cannot be nil"))
  | Some c =>
      if fails then (dst, Some (ErrExternal "Unable to marshal src"))
      else (c, None)
  end.

Definition platform (copyFails : bool) : Platform TestCfg.t SimDisk := {|
  os_Stat := Stat;
  ioutil_ReadFile := ReadFile;
  ioutil_WriteFile := WriteFile;
  yaml_Marshal := Marshal;
  yaml_Unmarshal := Unmarshal;
  deepcopy_Copy := Copy copyFails;
  deepValueEqual := fun a b => if TestCfg.eq_dec a b then true else false;
|}.

#[global] Instance faithful : Platform TestCfg.t SimDisk := platform false.

Definition path : string := "yamlconf_test".

(** [&Manager{EmptyConfig: ..., FilePath: ..., FilePollInterval: ...}] *)
Definition manager : Manager (C := TestCfg.t) :=
  mkManager (Some TestCfg.empty) path 100000000 "" "" 0 false None None.

Definition boot (d : SimDisk) : State (C := TestCfg.t) :=
  mkState manager [] [] d [].

Definition noFile : SimDisk := mkDisk [] 0 false.

(** *** Runs of the package on this platform *)

Definition after {A} (x : M (C := TestCfg.t) (Disk := SimDisk) A)
    (s : State (C := TestCfg.t) (Disk := SimDisk)) : State :=
  match x s with
  | Some (_, s') => s'
  | None => s
  end.

Definition with_disk (d : SimDisk) (s : State (C := TestCfg.t) (Disk := SimDisk)) : State :=
  mkState (mgr s) (heap s) (infos s) d (trace s).

Definition encode (c : TestCfg.t) : list byte :=
  match Marshal c with
  | inr bytes => bytes
  | inl _ => []
  end.

(** A delta in the manner of the test: it sets [N] to [{S: s, I: i}]. *)
Definition set_N (s : string) (i : Z) : delta :=
  mkDelta (fun c => (TestCfg.mk (TestCfg.Version c) (Some (TestCfg.mkNested s i)), None)).

(** A delta that changes the configuration and then reports an error. *)
Definition failing_delta : delta :=
  mkDelta (fun c => (TestCfg.mk 77 None, Some (ErrExternal "delta failed"))).

(** After [Start] on a path with no file: version 1 at address 1. *)
Definition started_fresh : State :=
  Eval vm_compute in after Start (boot noFile).

(** After two updates: version 3 at address 3. *)
Definition at_version_3 : State :=
  Eval vm_compute in
    after (processUpdates [Delta (set_N "4" 4); Delta (set_N "5" 5)]) started_fresh.

(** The file replaced from outside by a configuration of version 5. *)
Definition replaced : SimDisk :=
  Eval vm_compute in
    mkDisk [(path, mkFile (encode (TestCfg.mk 5 (Some (TestCfg.mkNested "x" 9)))) 40)]
      41 false.

Definition conflict : State := Eval vm_compute in with_disk replaced at_version_3.

(** The same, on a file system that refuses writes. *)
Definition conflict_read_only : State :=
  Eval vm_compute in
    with_disk (mkDisk (files replaced) (now replaced) true) at_version_3.

(** [started_fresh] once the file system refuses writes. *)
Definition started_read_only : State :=
  Eval vm_compute in
    with_disk (mkDisk (files (disk started_fresh)) (now (disk started_fresh)) true)
      started_fresh.

(** [started_fresh] after [copy] of the authoritative configuration: the
    candidate is at address 2. *)
Definition with_candidate : State :=
  Eval vm_compute in
    after (m ← this; copy (cfg m)) started_fresh.

(** A file holding a configuration whose version is the largest [int],
    and the manager started on it. *)
Definition max_version_file : SimDisk :=
  Eval vm_compute in
    mkDisk [(path, mkFile (encode (TestCfg.mk GoInt.max_int
                                      (Some (TestCfg.mkNested "" 55)))) 0)]
      1 false.

Definition started_at_max : State :=
  Eval vm_compute in after Start (boot max_version_file).

(** A state in which the loop is about to save the candidate made by
    [copy] and changed by the delta: the candidate is at address 2. *)
Definition with_changed_candidate (s : State (C := TestCfg.t) (Disk := SimDisk)) : State :=
  after (m ← this; '(q, _) ← copy (cfg m); call_deltaFn (set_N "4" 4) q) s.

Definition candidate_fresh : State :=
  Eval vm_compute in with_changed_candidate started_fresh.

Definition candidate_read_only : State :=
  Eval vm_compute in with_changed_candidate started_read_only.

Definition candidate_at_max : State :=
  Eval vm_compute in with_changed_candidate started_at_max.

(** *** More runs *)

(** The file edited from outside: same version, another content. *)
Definition edited : SimDisk :=
  Eval vm_compute in
    mkDisk [(path, mkFile (encode (TestCfg.mk 1 (Some (TestCfg.mkNested "3" 3)))) 7)]
      8 false.

Definition externally_edited : State := Eval vm_compute in with_disk edited started_fresh.

(** The file removed from outside. *)
Definition file_removed : State := Eval vm_compute in with_disk noFile started_fresh.


(** A platform on which every stat is refused. *)
Definition blind : Platform TestCfg.t SimDisk := {|
  os_Stat := fun _ d => (inl (ErrExternal "permission denied"), d);
  ioutil_ReadFile := ReadFile;
  ioutil_WriteFile := WriteFile;
  yaml_Marshal := Marshal;
  yaml_Unmarshal := Unmarshal;
  deepcopy_Copy := Copy false;
  deepValueEqual := fun a b => if TestCfg.eq_dec a b then true else false;
|}.

(** A manager about to make its first save, of the object at address 0. *)
Definition first_save : State (C := TestCfg.t) :=
  mkState manager [TestCfg.empty] [] noFile [].

(** A manager that asks for randomized http polls, with the interval left
    at zero and with a negative one. *)
Definition jittery (interval : Z) : Manager (C := TestCfg.t) :=
  mkManager (Some TestCfg.empty) path 100000000 "http://example" "" interval true
    None None.

(** A function that panics, as a delta that dereferences a nil field
    would. *)
Definition panicking : func (C := TestCfg.t) := go_func (fun _ => None).

(** A platform whose file system refuses one write and then recovers. *)
Definition WriteFile_refused_once (path : string) (data : list byte) (d : SimDisk)
  : option error * SimDisk :=
  if readOnly d
  then (Some (ErrExternal "input/output error"), mkDisk (files d) (now d) false)
  else WriteFile path data d.

Definition recovering : Platform TestCfg.t SimDisk := {|
  os_Stat := Stat;
  ioutil_ReadFile := ReadFile;
  ioutil_WriteFile := WriteFile_refused_once;
  yaml_Marshal := Marshal;
  yaml_Unmarshal := Unmarshal;
  deepcopy_Copy := Copy false;
  deepValueEqual := fun a b => if TestCfg.eq_dec a b then true else false;
|}.

(** The manager at version 3 when the next write is going to be refused. *)
Definition before_refusal : State :=
  Eval vm_compute in
    with_disk (mkDisk (files (disk at_version_3)) (now (disk at_version_3)) true)
      at_version_3.

(** A manager whose http poll interval is negative and randomized, not yet
    started, and no file. *)
Definition boot_negative : State :=
  mkState (jittery (-5)) [] [] noFile [].

End Sim.


(** * Facts *)

(** ** Go's [int] *)

Lemma GoInt_wrap_small z :
  (GoInt.min_int <= z <= GoInt.max_int)%Z -> GoInt.wrap z = z.
Proof.
  unfold GoInt.wrap, GoInt.min_int, GoInt.max_int. intros Hz.
  rewrite Z.mod_small; lia.
Qed.

Lemma GoInt_add_1_small v :
  (GoInt.min_int <= v < GoInt.max_int)%Z -> GoInt.add v 1 = (v + 1)%Z.
Proof.
  unfold GoInt.add. intros Hv. apply GoInt_wrap_small.
  unfold GoInt.min_int, GoInt.max_int in *. lia.
Qed.

Lemma GoInt_add_1_max : GoInt.add GoInt.max_int 1 = GoInt.min_int.
Proof. reflexivity. Qed.

(** ** Addresses in a heap that only grows at its end *)

Lemma lookup_snoc_new {A} (l : list A) x : (l ++ [x]) !! length l = Some x.
Proof. by rewrite lookup_app_r, Nat.sub_diag. Qed.

Lemma lookup_snoc_old {A} (l : list A) k y x :
  l !! k = Some y -> (l ++ [x]) !! k = Some y.
Proof. intros Hk. by apply lookup_app_l_Some. Qed.

Lemma lookup_insert_same {A} (l : list A) k y x :
  l !! k = Some y -> <[k:=x]> l !! k = Some x.
Proof. intros Hk. apply list_lookup_insert_eq. by eapply lookup_lt_Some. Qed.

Lemma lookup_insert_other {A} (l : list A) k k' y x :
  k <> k' -> l !! k' = Some y -> <[k:=x]> l !! k' = Some y.
Proof. intros Hne Hk. by rewrite list_lookup_insert_ne. Qed.

Lemma lookup_not_new {A} (l : list A) k y : l !! k = Some y -> k <> length l.
Proof. intros Hk%lookup_lt_Some. lia. Qed.

Lemma insert_snoc_new {A} (l : list A) x y : <[length l:=y]> (l ++ [x]) = l ++ [y].
Proof. by rewrite insert_app_r_alt, Nat.sub_diag. Qed.

Lemma insert_snoc_old {A} (l : list A) k z x y :
  l !! k = Some z -> <[k:=y]> (l ++ [x]) = <[k:=y]> l ++ [x].
Proof. intros Hk%lookup_lt_Some. by rewrite insert_app_l. Qed.

Lemma insert_back_and_forth {A} (l : list A) k k' (x x' y y' : A) :
  k <> k' ->
  <[k:=x']> (<[k':=y']> (<[k:=x]> (<[k':=y]> l))) = <[k:=x']> (<[k':=y']> l).
Proof.
  intros Hne.
  rewrite (list_insert_insert_ne (<[k':=y]> l) k' k) by done.
  by rewrite !list_insert_insert_eq.
Qed.

Lemma iface_eqb_fresh (o : option nat) (l : list FileStat) :
  match o with Some i => i < length l | None => True end ->
  iface_eqb o (Some (length l)) = false.
Proof.
  unfold iface_eqb. destruct o; [|done].
  intros Hlt. apply Nat.eqb_neq. lia.
Qed.

Create HintDb heap.
#[global] Hint Resolve lookup_snoc_new lookup_snoc_old lookup_insert_same
  lookup_insert_other lookup_not_new : heap.

Ltac heap := solve [eauto 10 using not_eq_sym with heap].

Section Facts.
Context {C Disk : Type} {ops : Config C} {plat : Platform C Disk}.
Implicit Types (m : Manager (C:=C)) (h : list C) (i : list FileStat)
  (d : Disk) (t : list Event) (c e u : C) (p q : nat)
  (s : State (C:=C) (Disk:=Disk)).

(** ** Running the primitives *)

Lemma run_bind {A B} (x : M (C:=C) (Disk:=Disk) A) (f : A -> M B) s :
  (x ≫= f) s = match x s with Some (a, s') => f a s' | None => None end.
Proof. reflexivity. Qed.

Lemma run_ret {A} (a : A) s : mret (M := M) a s = Some (a, s).
Proof. reflexivity. Qed.

Lemma run_this m h i d t :
  this (mkState m h i d t) = Some (m, mkState m h i d t).
Proof. reflexivity. Qed.

Lemma run_set_mgr f m h i d t :
  set_mgr f (mkState m h i d t) = Some (tt, mkState (f m) h i d t).
Proof. reflexivity. Qed.

Lemma run_emit (ev : Event) m h i d t :
  emit ev (mkState m h i d t) = Some (tt, mkState m h i d (t ++ [ev])).
Proof. reflexivity. Qed.

Lemma run_load p c m h i d t :
  h !! p = Some c -> load p (mkState m h i d t) = Some (c, mkState m h i d t).
Proof. intros Hp. unfold load. simpl. by rewrite Hp. Qed.

Lemma run_store p c u m h i d t :
  h !! p = Some c ->
  store p u (mkState m h i d t) = Some (tt, mkState m (<[p:=u]> h) i d t).
Proof. intros Hp. unfold store. simpl. by rewrite Hp. Qed.

Lemma run_GetVersion p c m h i d t :
  h !! p = Some c ->
  cfg_GetVersion p (mkState m h i d t) = Some (GetVersion c, mkState m h i d t).
Proof. intros Hp. unfold cfg_GetVersion. by rewrite run_bind, (run_load p c). Qed.

Lemma run_SetVersion p c v m h i d t :
  h !! p = Some c ->
  cfg_SetVersion p v (mkState m h i d t)
  = Some (tt, mkState m (<[p:=SetVersion v c]> h) i d t).
Proof.
  intros Hp. unfold cfg_SetVersion.
  rewrite run_bind, (run_load p c) by done. by apply run_store with c.
Qed.

Lemma run_ApplyDefaults p c m h i d t :
  h !! p = Some c ->
  cfg_ApplyDefaults p (mkState m h i d t)
  = Some (tt, mkState m (<[p:=ApplyDefaults c]> h) i d t).
Proof.
  intros Hp. unfold cfg_ApplyDefaults.
  rewrite run_bind, (run_load p c) by done. by apply run_store with c.
Qed.

Lemma run_EmptyConfig e m h i d t :
  EmptyConfig m = Some e ->
  call_EmptyConfig (mkState m h i d t) = Some (length h, mkState m (h ++ [e]) i d t).
Proof. intros He. unfold call_EmptyConfig. simpl. by rewrite He. Qed.

Lemma run_stat path r d' m h i d t :
  os_Stat path d = (r, d') ->
  stat path (mkState m h i d t)
  = Some (match r with inl err => inl err | inr _ => inr (length i) end,
          mkState m h (match r with inl _ => i | inr st => i ++ [st] end) d'
            (t ++ [EvStat path])).
Proof. intros Hs. unfold stat. simpl. rewrite Hs. by destruct r. Qed.

Lemma run_readFile path r d' m h i d t :
  ioutil_ReadFile path d = (r, d') ->
  readFile path (mkState m h i d t)
  = Some (r, mkState m h i d' (t ++ [EvReadFile path])).
Proof. intros Hs. unfold readFile. simpl. by rewrite Hs. Qed.

Lemma run_writeFile path data r d' m h i d t :
  ioutil_WriteFile path data d = (r, d') ->
  writeFile path data (mkState m h i d t)
  = Some (r, mkState m h i d' (t ++ [EvWriteFile path data])).
Proof. intros Hs. unfold writeFile. simpl. by rewrite Hs. Qed.

Lemma run_unmarshal data p c c' err m h i d t :
  h !! p = Some c -> yaml_Unmarshal data c = (c', err) ->
  unmarshal data p (mkState m h i d t) = Some (err, mkState m (<[p:=c']> h) i d t).
Proof.
  intros Hp Hu. unfold unmarshal. rewrite run_bind, (run_load p c) by done.
  rewrite Hu. by rewrite run_bind, (run_store p c) by done.
Qed.

(** One step of a run: the first call of the program is replaced by its
    result. *)
Ltac step :=
  first
    [ rewrite run_ret
    | rewrite run_this
    | rewrite run_set_mgr
    | rewrite run_emit
    | erewrite run_load by heap
    | erewrite run_store by heap
    | erewrite run_GetVersion by heap
    | erewrite run_SetVersion by heap
    | erewrite run_ApplyDefaults by heap
    | erewrite run_EmptyConfig by eassumption
    | erewrite run_stat by eassumption
    | erewrite run_readFile by eassumption
    | erewrite run_writeFile by eassumption
    | erewrite run_unmarshal by (first [eassumption | heap])
    | rewrite run_bind ];
  cbv beta iota.

Ltac tidy :=
  rewrite ?insert_snoc_new, <- ?app_assoc; cbn [app].

Lemma run_DeepEqual_nil q s :
  reflect_DeepEqual None (Some q) s = Some (false, s).
Proof. reflexivity. Qed.

Lemma run_DeepEqual_ne p q c u m h i d t :
  p <> q -> h !! p = Some c -> h !! q = Some u ->
  reflect_DeepEqual (Some p) (Some q) (mkState m h i d t)
  = Some (deepValueEqual c u, mkState m h i d t).
Proof.
  intros Hne Hp Hq. unfold reflect_DeepEqual.
  apply Nat.eqb_neq in Hne. rewrite Hne. by do 5 step.
Qed.

(** ** [writeToDisk] *)

Lemma run_writeToDisk p c m h i d t :
  h !! p = Some c ->
  writeToDisk p (mkState m h i d t) =
  match yaml_Marshal c with
  | inl err => Some (Some (ErrMarshal err), mkState m h i d t)
  | inr bytes =>
      let '(w, d1) := ioutil_WriteFile (FilePath m) bytes d in
      let t1 := t ++ [EvWriteFile (FilePath m) bytes] in
      match w with
      | Some err => Some (Some (ErrWriteFile (FilePath m) err), mkState m h i d1 t1)
      | None =>
          let '(r, d2) := os_Stat (FilePath m) d1 in
          let t2 := t1 ++ [EvStat (FilePath m)] in
          match r with
          | inl err =>
              Some (Some (ErrStatFile (FilePath m) err),
                    mkState (with_fileInfo None m) h i d2 t2)
          | inr st =>
              Some (None,
                    mkState (with_fileInfo (Some (length i)) m) h (i ++ [st]) d2 t2)
          end
      end
  end.
Proof.
  intros Hp. unfold writeToDisk. do 2 step.
  destruct (yaml_Marshal c) as [err|bytes]; [by step|].
  do 2 step.
  destruct (ioutil_WriteFile (FilePath m) bytes d) as [w d1] eqn:Hw.
  do 2 step. destruct w as [err|]; [by step|].
  destruct (os_Stat (FilePath m) d1) as [r d2] eqn:Hs.
  do 2 step. destruct r as [err|st]; by repeat step.
Qed.

(** [writeToDisk] returns, whatever the collaborators answer; it touches
    no configuration, and of the manager only the fingerprint. *)
Lemma writeToDisk_frame p c s :
  heap s !! p = Some c ->
  exists werr s' tl,
    writeToDisk p s = Some (werr, s')
    /\ heap s' = heap s
    /\ with_fileInfo None (mgr s') = with_fileInfo None (mgr s)
    /\ trace s' = trace s ++ tl.
Proof.
  destruct s as [m h i d t]. simpl. intros Hp.
  rewrite (run_writeToDisk p c) by done.
  destruct (yaml_Marshal c) as [err|bytes].
  { exists (Some (ErrMarshal err)), (mkState m h i d t), []. by rewrite app_nil_r. }
  destruct (ioutil_WriteFile _ _ _) as [[err|] d1]; [by eauto 10|].
  destruct (os_Stat _ _) as [[err|st] d2]; cbv zeta; rewrite <- app_assoc; by eauto 10.
Qed.

(** ** [reloadFromDisk] *)

(** The run of [reloadFromDisk] up to version reconciliation. *)
Ltac decode Hfi :=
  unfold reloadFromDisk; do 6 step;
  rewrite (iface_eqb_fresh _ _ Hfi); cbv beta iota;
  do 4 step; tidy.

(** C6: a load that passes version reconciliation and decodes a
    configuration deeply equal to the authoritative one reports no change
    and no error; the manager (the authoritative pointer and the
    fingerprint) and the authoritative configuration are as before, and the
    poll that ran the load publishes nothing: the trace grows by the stat and
    the read only. *)
Theorem reload_same_content s e p c st d1 data d2 c' :
  EmptyConfig (mgr s) = Some e ->
  cfg (mgr s) = Some p ->
  heap s !! p = Some c ->
  fileInfo_allocated s ->
  os_Stat (FilePath (mgr s)) (disk s) = (inr st, d1) ->
  ioutil_ReadFile (FilePath (mgr s)) d1 = (inr data, d2) ->
  yaml_Unmarshal data e = (c', None) ->
  GetVersion c = GetVersion c' ->
  deepValueEqual c c' = true ->
  exists s',
    reloadFromDisk s = Some ((false, None), s')
    /\ serve FilePoll s = Some (tt, s')
    /\ mgr s' = mgr s
    /\ heap s' !! p = Some c
    /\ (forall k, fileInfo (mgr s) = Some k -> infos s' !! k = infos s !! k)
    /\ trace s' = trace s ++ [EvStat (FilePath (mgr s)); EvReadFile (FilePath (mgr s))].
Proof.
  destruct s as [m h i d t]. unfold fileInfo_allocated. simpl.
  intros He Hm Hp Hfi Hst Hrd Hun Hv Heq.
  assert (reloadFromDisk (mkState m h i d t)
          = Some ((false, None), decoded_state (mkState m h i d t) st d2 c')) as Hrun.
  { decode Hfi. rewrite Hm. do 6 step. rewrite Hv, Z.eqb_refl. cbn [negb].
    unfold reflect_DeepEqual.
    destruct (Nat.eqb_spec p (length h)) as [->|_].
    { apply lookup_lt_Some in Hp. lia. }
    do 6 step. rewrite Heq. by step. }
  exists (decoded_state (mkState m h i d t) st d2 c').
  split; [done|]. split; [by rewrite run_bind, Hrun|].
  split; [done|]. split; [simpl; heap|]. split; [|done].
  intros k Hk. rewrite Hk in Hfi. simpl. by rewrite lookup_app_l.
Qed.

(** Version reconciliation rejects the decoded configuration: whatever
    the overwrite of the file answers, the load answers the mismatch. *)
Lemma run_reload_mismatch s e p c st d1 data d2 c' werr s' :
  EmptyConfig (mgr s) = Some e ->
  cfg (mgr s) = Some p ->
  heap s !! p = Some c ->
  fileInfo_allocated s ->
  os_Stat (FilePath (mgr s)) (disk s) = (inr st, d1) ->
  ioutil_ReadFile (FilePath (mgr s)) d1 = (inr data, d2) ->
  yaml_Unmarshal data e = (c', None) ->
  GetVersion c <> GetVersion c' ->
  writeToDisk p (decoded_state s st d2 c') = Some (werr, s') ->
  reloadFromDisk s
  = Some ((false, Some (ErrVersionMismatch (GetVersion c) (GetVersion c'))), s').
Proof.
  destruct s as [m h i d t]. unfold fileInfo_allocated, decoded_state. simpl.
  intros He Hm Hp Hfi Hst Hrd Hun Hv Hw.
  destruct (writeToDisk_frame p c (mkState m (h ++ [c']) (i ++ [st]) d2
    (t ++ [EvStat (FilePath m); EvReadFile (FilePath m)]))) as (w & s2 & tl & Hw' & Hh & _);
    [simpl; heap|].
  rewrite Hw in Hw'. injection Hw' as <- <-.
  decode Hfi. rewrite Hm. do 6 step.
  apply Z.eqb_neq in Hv. rewrite Hv. cbn [negb]. step. rewrite Hw. cbv beta iota.
  destruct s' as [m' h' i' d' t']. simpl in Hh. subst h'.
  by do 5 step.
Qed.

(** C1: when an authoritative configuration exists and the decoded one
    carries another version, the load runs the write-back of the
    authoritative configuration ([writeToDisk] on it, so its encoding is
    handed to [ioutil.WriteFile]), answers the version mismatch with the
    expected and the found version, and keeps the authoritative
    configuration. *)
Theorem reload_rejects_other_version s e p c st d1 data d2 c' :
  EmptyConfig (mgr s) = Some e ->
  cfg (mgr s) = Some p ->
  heap s !! p = Some c ->
  fileInfo_allocated s ->
  os_Stat (FilePath (mgr s)) (disk s) = (inr st, d1) ->
  ioutil_ReadFile (FilePath (mgr s)) d1 = (inr data, d2) ->
  yaml_Unmarshal data e = (c', None) ->
  GetVersion c <> GetVersion c' ->
  exists werr s',
    writeToDisk p (decoded_state s st d2 c') = Some (werr, s')
    /\ reloadFromDisk s
       = Some ((false, Some (ErrVersionMismatch (GetVersion c) (GetVersion c'))), s')
    /\ cfg (mgr s') = Some p
    /\ heap s' !! p = Some c
    /\ (forall bytes, yaml_Marshal c = inr bytes ->
        exists tl,
          trace s' = trace s ++ [EvStat (FilePath (mgr s)); EvReadFile (FilePath (mgr s));
                                 EvWriteFile (FilePath (mgr s)) bytes] ++ tl
          /\ (forall d3, ioutil_WriteFile (FilePath (mgr s)) bytes d2 = (None, d3) ->
              disk s' = (os_Stat (FilePath (mgr s)) d3).2)).
Proof.
  intros He Hm Hp Hfi Hst Hrd Hun Hv.
  assert (heap (decoded_state s st d2 c') !! p = Some c) as Hp' by (simpl; heap).
  destruct (writeToDisk_frame p c _ Hp') as (werr & s' & tl & Hw & Hh & Hmgr & _).
  exists werr, s'. split; [done|]. split; [by eapply run_reload_mismatch|].
  split.
  { apply (f_equal cfg) in Hmgr. simpl in Hmgr. by rewrite Hmgr. }
  split; [by rewrite Hh|].
  intros bytes Hb. clear Hh Hmgr Hp'.
  destruct s as [m h i d t]. unfold decoded_state in Hw. simpl in *.
  rewrite (run_writeToDisk p c) in Hw by heap. rewrite Hb in Hw.
  destruct (ioutil_WriteFile (FilePath m) bytes d2) as [[err|] d3] eqn:Hwf.
  { injection Hw as <- <-. simpl. rewrite <- app_assoc. exists []. split; [done|].
    intros ? [=]. }
  destruct (os_Stat (FilePath m) d3) as [[err|st'] d4] eqn:Hs; cbv zeta in Hw;
    injection Hw as <- <-; simpl; rewrite <- !app_assoc;
    exists [EvStat (FilePath m)]; (split; [done|]); intros ? [= <-]; by rewrite Hs.
Qed.

(** C10: when version reconciliation rejects a load, the result of the
    overwrite is dropped.  The overwrite returns some result; whatever it
    is, the load returns the version mismatch; and the overwrite does fail
    when the encoding fails (nothing is written) or the write fails (the
    disk is left as the failed write left it). *)
Theorem reload_drops_overwrite_error s e p c st d1 data d2 c' :
  EmptyConfig (mgr s) = Some e ->
  cfg (mgr s) = Some p ->
  heap s !! p = Some c ->
  fileInfo_allocated s ->
  os_Stat (FilePath (mgr s)) (disk s) = (inr st, d1) ->
  ioutil_ReadFile (FilePath (mgr s)) d1 = (inr data, d2) ->
  yaml_Unmarshal data e = (c', None) ->
  GetVersion c <> GetVersion c' ->
  (exists werr s', writeToDisk p (decoded_state s st d2 c') = Some (werr, s'))
  /\ (forall werr s',
        writeToDisk p (decoded_state s st d2 c') = Some (werr, s') ->
        reloadFromDisk s
        = Some ((false, Some (ErrVersionMismatch (GetVersion c) (GetVersion c'))), s'))
  /\ (forall err,
        yaml_Marshal c = inl err ->
        writeToDisk p (decoded_state s st d2 c')
        = Some (Some (ErrMarshal err), decoded_state s st d2 c'))
  /\ (forall bytes err d3,
        yaml_Marshal c = inr bytes ->
        ioutil_WriteFile (FilePath (mgr s)) bytes d2 = (Some err, d3) ->
        exists s',
          writeToDisk p (decoded_state s st d2 c')
          = Some (Some (ErrWriteFile (FilePath (mgr s)) err), s')
          /\ disk s' = d3).
Proof.
  intros He Hm Hp Hfi Hst Hrd Hun Hv.
  assert (heap (decoded_state s st d2 c') !! p = Some c) as Hp' by (simpl; heap).
  split.
  { destruct (writeToDisk_frame p c _ Hp') as (werr & s' & tl & Hw & _). eauto. }
  split; [intros werr s' Hw; by eapply run_reload_mismatch|].
  unfold decoded_state in *. simpl in Hp'.
  split.
  - intros err Hb. rewrite (run_writeToDisk p c) by done. by rewrite Hb.
  - intros bytes err d3 Hb Hwf. rewrite (run_writeToDisk p c) by done.
    rewrite Hb, Hwf. eauto.
Qed.

(** [writeToDisk] keeps the fingerprint allocated. *)
Lemma writeToDisk_allocated p c s werr s' :
  heap s !! p = Some c ->
  fileInfo_allocated s ->
  writeToDisk p s = Some (werr, s') ->
  fileInfo_allocated s'.
Proof.
  destruct s as [m h i d t]. unfold fileInfo_allocated. cbn [mgr heap infos].
  intros Hp Hfi. rewrite (run_writeToDisk p c) by done.
  destruct (yaml_Marshal c) as [err|bytes]; [by intros [= <- <-]|].
  destruct (ioutil_WriteFile _ _ _) as [[err|] d1]; [by intros [= <- <-]|].
  destruct (os_Stat _ _) as [[err|st] d2]; cbv zeta; intros [= <- <-]; cbn; [done|].
  rewrite length_app. cbn. lia.
Qed.

Ltac use_mgr :=
  repeat match goal with
    | H : cfg ?m = _ |- context [cfg ?m] => rewrite H
    | H : fileInfo ?m = _ |- context [fileInfo ?m] => rewrite H
    end.

(** The end of a run: the result, and the facts about the final state. *)
Ltac close :=
  do 2 eexists; (split; [reflexivity|]); cbn; use_mgr; repeat split;
  first [ done | by eexists | eexists; heap | rewrite length_app; cbn; lia
        | intros ?? [= <- <-]; by exists [] | by intros ?? [=] ].

(** [reloadFromDisk] returns whenever the factory is set and the pointers
    of the manager are allocated, and keeps them so.  Its fingerprint test
    compares the address held by the manager with the address [os.Stat] has
    just given out, so it never succeeds: whenever the stat succeeds the file
    is read, whatever its size and modification time. *)
Lemma reload_total s e :
  EmptyConfig (mgr s) = Some e ->
  cfg_allocated s ->
  fileInfo_allocated s ->
  exists r s',
    reloadFromDisk s = Some (r, s')
    /\ EmptyConfig (mgr s') = Some e
    /\ cfg_allocated s'
    /\ fileInfo_allocated s'
    /\ (is_Some (cfg (mgr s)) -> is_Some (cfg (mgr s')))
    /\ (r.2 = None -> is_Some (cfg (mgr s')))
    /\ (forall st d1,
          os_Stat (FilePath (mgr s)) (disk s) = (inr st, d1) ->
          exists tl,
            trace s' = trace s ++ [EvStat (FilePath (mgr s));
                                   EvReadFile (FilePath (mgr s))] ++ tl).
Proof.
  destruct s as [m h i d t]. unfold fileInfo_allocated, cfg_allocated.
  cbn [mgr heap infos disk trace]. intros He Hcfg Hfi.
  assert (match fileInfo m with
          | Some k => forall st, k < length (i ++ [st])
          | None => True
          end) as Hfi1.
  { destruct (fileInfo m); [|done]. intros st. rewrite length_app. cbn. lia. }
  pose proof (iface_eqb_fresh _ _ Hfi) as Hne.
  unfold reloadFromDisk. do 4 step.
  destruct (os_Stat (FilePath m) d) as [[serr|st] d1] eqn:Hst; do 2 step;
    [|rewrite Hne; cbv beta iota;
      destruct (ioutil_ReadFile (FilePath m) d1) as [[rerr|data] d2] eqn:Hrd;
      repeat step; tidy;
      [|destruct (yaml_Unmarshal data e) as [c' [uerr|]] eqn:Hun;
        repeat step; tidy]].
  all: destruct (cfg m) as [p|] eqn:Hm; [destruct Hcfg as [c Hp]|].
  all: destruct (fileInfo m) as [k|] eqn:Hk.
  all: try close.
  all: repeat step.
  all: destruct (GetVersion c =? GetVersion c')%Z; cbn [negb]; repeat step;
    [unfold reflect_DeepEqual; destruct (Nat.eqb p (length h)); repeat step;
     [close|destruct (deepValueEqual c c'); repeat step; close]|].
  all: set (s2 := mkState m (h ++ [c']) _ _ _);
    assert (heap s2 !! p = Some c) as Hp2 by (cbn; heap);
    assert (fileInfo_allocated s2) as Hfi2
      by (unfold fileInfo_allocated; cbn; rewrite Hk; first [done | apply Hfi1]);
    destruct (writeToDisk_frame p c s2 Hp2) as (werr & s' & tl & Hw & Hh & Hmgr & Ht);
    pose proof (writeToDisk_allocated p c s2 werr s' Hp2 Hfi2 Hw) as Hfi';
    rewrite Hw; cbv beta iota; destruct s' as [m' h' i' d' t'];
    unfold fileInfo_allocated in Hfi'; cbn in Hh, Ht, Hmgr, Hfi'; subst h' t';
    assert (cfg m' = Some p) as Hm'
      by (apply (f_equal cfg) in Hmgr; cbn in Hmgr; congruence);
    assert (EmptyConfig m' = Some e) as He'
      by (apply (f_equal EmptyConfig) in Hmgr; cbn in Hmgr; congruence);
    repeat step; do 2 eexists; (split; [reflexivity|]); cbn; rewrite Hm';
    repeat split;
    first [ done | by eexists | eexists; heap
          | intros ?? [= <- <-]; exists tl; by rewrite <- !app_assoc ].
Qed.


(** ** [saveToDiskAndUpdate] *)

(** The first save: there is no authoritative configuration yet. *)
Lemma run_save_first q u m h i d t :
  cfg m = None ->
  h !! q = Some u ->
  saveToDiskAndUpdate q (mkState m h i d t)
  = save_result q (writeToDisk q (mkState m (<[q:=committed u 0]> h) i d t)).
Proof.
  intros Hm Hq. unfold saveToDiskAndUpdate.
  do 4 step. rewrite Hm. do 5 step. rewrite run_DeepEqual_nil. cbv beta iota.
  do 3 step. rewrite !list_insert_insert_eq. fold (committed u 0).
  destruct (writeToDisk _ _) as [[[err|] s']|]; [done| |done].
  destruct s' as [m' h' i' d' t']. by do 3 step.
Qed.

(** A save that finds the candidate different from the authoritative
    configuration calls [writeToDisk] with the version of the
    authoritative configuration set to zero. *)
Lemma run_save_next p c q u m h i d t :
  cfg m = Some p ->
  p <> q ->
  h !! p = Some c ->
  h !! q = Some u ->
  deepValueEqual (SetVersion 0 c) (SetVersion 0 (ApplyDefaults u)) = false ->
  saveToDiskAndUpdate q (mkState m h i d t)
  = save_result q
      (writeToDisk q
         (mkState m (<[q:=committed u (GetVersion c)]> (<[p:=SetVersion 0 c]> h)) i d t)).
Proof.
  intros Hm Hne Hp Hq Hd. unfold saveToDiskAndUpdate.
  do 4 step. rewrite Hm. do 9 step.
  erewrite run_DeepEqual_ne by heap. rewrite Hd. cbv beta iota.
  do 3 step. rewrite list_insert_insert_eq.
  rewrite (list_insert_insert_ne _ p q) by done.
  rewrite list_insert_insert_eq. fold (committed u (GetVersion c)).
  destruct (writeToDisk _ _) as [[[err|] s']|]; [done| |done].
  destruct s' as [m' h' i' d' t']. by do 3 step.
Qed.

(** A save that finds the candidate equal to the authoritative
    configuration. *)
Lemma run_save_same p c q u m h i d t :
  cfg m = Some p ->
  p <> q ->
  h !! p = Some c ->
  h !! q = Some u ->
  deepValueEqual (SetVersion 0 c) (SetVersion 0 (ApplyDefaults u)) = true ->
  saveToDiskAndUpdate q (mkState m h i d t)
  = Some ((false, None),
          mkState m
            (<[p:=SetVersion (GetVersion c) (SetVersion 0 c)]>
               (<[q:=SetVersion 0 (ApplyDefaults u)]> h)) i d t).
Proof.
  intros Hm Hne Hp Hq Hd. unfold saveToDiskAndUpdate.
  do 4 step. rewrite Hm. do 9 step.
  erewrite run_DeepEqual_ne by heap. rewrite Hd. cbv beta iota.
  do 3 step. by rewrite insert_back_and_forth.
Qed.

(** C3, amended: a save whose candidate (a separate object), defaulted
    and with both versions zeroed, is deeply equal to the authoritative
    configuration writes nothing and reports no change; the authoritative
    configuration is as before, its version restored and not incremented.
    The candidate is left defaulted with version zero: its version is not
    restored. *)
Theorem save_same_content_is_noop (laws : ConfigLaws C) s p c q u :
  cfg (mgr s) = Some p ->
  p <> q ->
  heap s !! p = Some c ->
  heap s !! q = Some u ->
  deepValueEqual (SetVersion 0 c) (SetVersion 0 (ApplyDefaults u)) = true ->
  exists s',
    saveToDiskAndUpdate q s = Some ((false, None), s')
    /\ trace s' = trace s
    /\ disk s' = disk s
    /\ mgr s' = mgr s
    /\ heap s' !! p = Some c
    /\ version_at s' p = version_at s p
    /\ heap s' !! q = Some (SetVersion 0 (ApplyDefaults u))
    /\ version_at s' q = Some 0%Z.
Proof.
  destruct s as [m h i d t]. unfold version_at. simpl.
  intros Hm Hne Hp Hq Hd.
  eexists. split; [by apply (run_save_same p c q u)|]. simpl.
  rewrite SetVersion_SetVersion, SetVersion_GetVersion.
  assert (<[p:=c]> (<[q:=SetVersion 0 (ApplyDefaults u)]> h) !! p = Some c)
    as Hp' by heap.
  assert (<[p:=c]> (<[q:=SetVersion 0 (ApplyDefaults u)]> h) !! q
          = Some (SetVersion 0 (ApplyDefaults u))) as Hq' by heap.
  rewrite Hp', Hq', Hp. simpl. by rewrite GetVersion_SetVersion.
Qed.

(** C4, amended: a save whose candidate differs from the authoritative
    configuration and whose write succeeds gives the candidate the version
    the authoritative configuration has when the save starts (0 when there
    is none) plus 1 in Go's [int].  When the stat taken after the write
    succeeds too, so that [writeToDisk] returns nil, the candidate becomes
    the authoritative configuration and the save reports a change; its
    version is exactly one more than the one read, and so larger, whenever
    that one is below the largest [int].  When that stat fails, the save
    returns the error of the stat and the candidate does not become
    authoritative, although the file holds it. *)
Theorem save_commits_next_version (laws : ConfigLaws C) s q u v bytes d1 :
  heap s !! q = Some u ->
  differs s q u v ->
  yaml_Marshal (committed u v) = inr bytes ->
  ioutil_WriteFile (FilePath (mgr s)) bytes (disk s) = (None, d1) ->
  (forall st d2,
      os_Stat (FilePath (mgr s)) d1 = (inr st, d2) ->
      exists s',
        saveToDiskAndUpdate q s = Some ((true, None), s')
        /\ cfg (mgr s') = Some q
        /\ heap s' !! q = Some (committed u v)
        /\ version_at s' q = Some (GoInt.add v 1)
        /\ ((GoInt.min_int <= v < GoInt.max_int)%Z ->
            version_at s' q = Some (v + 1)%Z)
        /\ trace s' = trace s ++ [EvWriteFile (FilePath (mgr s)) bytes;
                                  EvStat (FilePath (mgr s))]
        /\ disk s' = d2)
  /\ (forall err d2,
        os_Stat (FilePath (mgr s)) d1 = (inl err, d2) ->
        exists s',
          saveToDiskAndUpdate q s
          = Some ((false, Some (ErrStatFile (FilePath (mgr s)) err)), s')
          /\ cfg (mgr s') = cfg (mgr s)
          /\ heap s' !! q = Some (committed u v)
          /\ version_at s' q = Some (GoInt.add v 1)
          /\ trace s' = trace s ++ [EvWriteFile (FilePath (mgr s)) bytes;
                                    EvStat (FilePath (mgr s))]
          /\ disk s' = d2).
Proof.
  destruct s as [m h i d t]. unfold differs, version_at. simpl.
  intros Hq Hdiff Hb Hw.
  assert (GetVersion (committed u v) = GoInt.add v 1) as Hv
    by (unfold committed; apply GetVersion_SetVersion).
  assert (exists h',
             saveToDiskAndUpdate q (mkState m h i d t)
             = save_result q (writeToDisk q (mkState m h' i d t))
             /\ h' !! q = Some (committed u v)) as (h' & -> & Hq').
  { destruct (cfg m) as [p|] eqn:Hm.
    - destruct Hdiff as (Hne & c & Hp & -> & Hd).
      eexists. split; [by apply (run_save_next p c q u)|heap].
    - subst v. eexists. split; [by apply run_save_first|heap]. }
  rewrite (run_writeToDisk q (committed u v)) by done. rewrite Hb, Hw.
  split.
  - intros st d2 Hs. rewrite Hs. eexists. split; [reflexivity|].
    simpl. rewrite Hq'. simpl. rewrite Hv, <- app_assoc.
    repeat split; try done. intros Hr. by rewrite GoInt_add_1_small.
  - intros err d2 Hs. rewrite Hs. eexists. split; [reflexivity|].
    simpl. rewrite Hq'. simpl. rewrite Hv, <- app_assoc. by repeat split.
Qed.

(** What a save that finds a different candidate leaves behind: when
    [writeToDisk] fails the error is returned and the manager keeps
    pointing at the old configuration, whose version is left at zero. *)
Lemma save_outcome (laws : ConfigLaws C) s p c q u :
  cfg (mgr s) = Some p ->
  p <> q ->
  heap s !! p = Some c ->
  heap s !! q = Some u ->
  deepValueEqual (SetVersion 0 c) (SetVersion 0 (ApplyDefaults u)) = false ->
  exists changed res s',
    saveToDiskAndUpdate q s = Some ((changed, res), s')
    /\ heap s' !! p = Some (SetVersion 0 c)
    /\ version_at s' p = Some 0%Z
    /\ match res with
       | Some _ => changed = false /\ cfg (mgr s') = Some p
       | None => changed = true /\ cfg (mgr s') = Some q
       end.
Proof.
  destruct s as [m h i d t]. unfold version_at. simpl.
  intros Hm Hne Hp Hq Hd.
  rewrite (run_save_next p c q u) by done.
  set (s1 := mkState m _ i d t).
  assert (heap s1 !! q = Some (committed u (GetVersion c))) as Hq1
    by (simpl; heap).
  assert (heap s1 !! p = Some (SetVersion 0 c)) as Hp1 by (simpl; heap).
  destruct (writeToDisk_frame q _ s1 Hq1) as (werr & s' & tl & -> & Hh & Hmgr & _).
  apply (f_equal cfg) in Hmgr. simpl in Hmgr.
  destruct werr as [err|]; simpl; do 3 eexists; (split; [reflexivity|]);
    simpl; rewrite Hh, Hp1; simpl; rewrite GetVersion_SetVersion;
    repeat split; congruence.
Qed.

(** ** [copy] and the update loop *)

Lemma run_copy e p c c1 cerr m h i d t :
  EmptyConfig m = Some e ->
  h !! p = Some c ->
  deepcopy_Copy e (Some c) = (c1, cerr) ->
  copy (Some p) (mkState m h i d t)
  = Some ((length h, cerr), mkState m (h ++ [c1]) i d t).
Proof.
  intros He Hp Hc. unfold copy. repeat step. rewrite Hc. repeat step. by tidy.
Qed.

Lemma run_deltaFn dl q u u' err m h i d t :
  h !! q = Some u ->
  deltaFn dl u = (u', err) ->
  call_deltaFn dl q (mkState m h i d t) = Some (err, mkState m (<[q:=u']> h) i d t).
Proof.
  intros Hq Hd. unfold call_deltaFn. repeat step. rewrite Hd. by repeat step.
Qed.

(** The delta branch up to the call of [saveToDiskAndUpdate]: the error
    of [copy] is not looked at. *)
Lemma run_serve_delta dl e p c c1 cerr c2 derr m h i d t :
  EmptyConfig m = Some e ->
  cfg m = Some p ->
  h !! p = Some c ->
  deepcopy_Copy e (Some c) = (c1, cerr) ->
  deltaFn dl c1 = (c2, derr) ->
  serve (Delta dl) (mkState m h i d t)
  = match derr with
    | Some err => Some (tt, mkState m (h ++ [c2]) i d (t ++ [EvReply (Some err)]))
    | None =>
        match saveToDiskAndUpdate (length h) (mkState m (h ++ [c2]) i d t) with
        | Some ((changed, Some err), mkState m' h' i' d' t') =>
            Some (tt, mkState m' h' i' d' (t' ++ [EvReply (Some err)]))
        | Some ((changed, None), mkState m' h' i' d' t') =>
            Some (tt, mkState m' h' i' d'
                        (if changed then t' ++ [EvReply None; EvPublish (cfg m')]
                         else t' ++ [EvReply None]))
        | None => None
        end
    end.
Proof.
  intros He Hm Hp Hc Hd. unfold serve. do 2 step. rewrite Hm.
  step. erewrite run_copy by eassumption. cbv beta iota.
  step. erewrite run_deltaFn by (first [eassumption | heap]). cbv beta iota. tidy.
  destruct derr as [err|]; [by step|].
  step. destruct (saveToDiskAndUpdate _ _) as [[[changed res] [m' h' i' d' t']]|]; [|done].
  do 2 step. destruct res as [err|]; [by step|].
  destruct changed; [|by step].
  unfold publish. do 3 step. by tidy.
Qed.

(** C5: a delta function that returns an error gets that error as the
    reply to its [Update]; the manager and the authoritative configuration
    are untouched (the delta ran on the new object made by [copy]), nothing
    is written and nothing is published. *)
Theorem update_with_failing_delta s dl e p c c1 cerr c2 err :
  EmptyConfig (mgr s) = Some e ->
  cfg (mgr s) = Some p ->
  heap s !! p = Some c ->
  deepcopy_Copy e (Some c) = (c1, cerr) ->
  deltaFn dl c1 = (c2, Some err) ->
  exists s',
    serve (Delta dl) s = Some (tt, s')
    /\ trace s' = trace s ++ [EvReply (Some err)]
    /\ mgr s' = mgr s
    /\ heap s' !! p = Some c
    /\ heap s' = heap s ++ [c2]
    /\ disk s' = disk s.
Proof.
  destruct s as [m h i d t]. cbn [mgr heap infos disk trace].
  intros He Hm Hp Hc Hd. eexists. split; [by erewrite run_serve_delta by eassumption|].
  simpl. repeat split. heap.
Qed.

(** C9: the error of [copy] is dropped.  When [deepcopy.Copy] fails and
    leaves [c1] in the new object, the delta function still runs on [c1]:
    when it fails, what it made of [c1] is in the new object and the reply
    is its error, not the error of the copy; when it returns nil and the
    save goes through, what it made of [c1] is committed as the
    authoritative configuration and published, and the reply is nil. *)
Theorem update_after_failed_copy s dl e p c c1 cerr :
  EmptyConfig (mgr s) = Some e ->
  cfg (mgr s) = Some p ->
  heap s !! p = Some c ->
  deepcopy_Copy e (Some c) = (c1, Some cerr) ->
  (forall c2 err,
      deltaFn dl c1 = (c2, Some err) ->
      exists s',
        serve (Delta dl) s = Some (tt, s')
        /\ heap s' !! length (heap s) = Some c2
        /\ trace s' = trace s ++ [EvReply (Some err)])
  /\ (forall c2 bytes d1 st d2,
        deltaFn dl c1 = (c2, None) ->
        deepValueEqual (SetVersion 0 c) (SetVersion 0 (ApplyDefaults c2)) = false ->
        yaml_Marshal (committed c2 (GetVersion c)) = inr bytes ->
        ioutil_WriteFile (FilePath (mgr s)) bytes (disk s) = (None, d1) ->
        os_Stat (FilePath (mgr s)) d1 = (inr st, d2) ->
        exists s',
          serve (Delta dl) s = Some (tt, s')
          /\ cfg (mgr s') = Some (length (heap s))
          /\ heap s' !! length (heap s) = Some (committed c2 (GetVersion c))
          /\ trace s' = trace s ++ [EvWriteFile (FilePath (mgr s)) bytes;
                                    EvStat (FilePath (mgr s));
                                    EvReply None;
                                    EvPublish (Some (length (heap s)))]).
Proof.
  destruct s as [m h i d t]. cbn [mgr heap infos disk trace].
  intros He Hm Hp Hc. split.
  - intros c2 err Hd. eexists.
    split; [by erewrite run_serve_delta by eassumption|].
    cbn. split; [heap|done].
  - intros c2 bytes d1 st d2 Hd Hne Hb Hw Hs.
    assert (p <> length h) as Hpq by heap.
    eexists. split.
    { erewrite run_serve_delta by eassumption.
      rewrite (run_save_next p c (length h) c2) by (first [done | heap]).
      rewrite (run_writeToDisk (length h) (committed c2 (GetVersion c))) by heap.
      rewrite Hb, Hw, Hs. reflexivity. }
    simpl. split; [done|]. split; [heap|]. by rewrite <- !app_assoc.
Qed.

(** ** [Start] *)

(** A load that fails before there is an authoritative configuration
    leaves the manager as it was. *)
Lemma reload_failure_keeps_manager s b err s1 :
  cfg (mgr s) = None ->
  reloadFromDisk s = Some ((b, Some err), s1) ->
  mgr s1 = mgr s.
Proof.
  destruct s as [m h i d t]. cbn [mgr]. intros Hm.
  unfold reloadFromDisk.
  destruct (EmptyConfig m) as [e|] eqn:He;
    [|by rewrite run_bind; unfold call_EmptyConfig; cbn [mgr]; rewrite He].
  destruct (os_Stat (FilePath m) d) as [[serr|st] d1] eqn:Hst; repeat step.
  { by intros [= <- <- <-]. }
  destruct (iface_eqb _ _); [by step|].
  destruct (ioutil_ReadFile (FilePath m) d1) as [[rerr|data] d2] eqn:Hrd;
    repeat step.
  { by intros [= <- <- <-]. }
  destruct (yaml_Unmarshal data e) as [c' [uerr|]] eqn:Hun; repeat step.
  { by intros [= <- <- <-]. }
  rewrite Hm. repeat step. rewrite run_DeepEqual_nil. cbv beta iota.
  by repeat step.
Qed.

(** The three ways in which the initial load fails: the file cannot be
    statted (it is missing), cannot be read, or cannot be decoded. *)
Lemma initial_load_failures s e :
  EmptyConfig (mgr s) = Some e ->
  fileInfo (mgr s) = None ->
  (forall err d1,
      os_Stat (FilePath (mgr s)) (disk s) = (inl err, d1) ->
      exists s1, reloadFromDisk s
                 = Some ((false, Some (ErrStatConfig (FilePath (mgr s)) err)), s1))
  /\ (forall st d1 err d2,
        os_Stat (FilePath (mgr s)) (disk s) = (inr st, d1) ->
        ioutil_ReadFile (FilePath (mgr s)) d1 = (inl err, d2) ->
        exists s1, reloadFromDisk s
                   = Some ((false, Some (ErrReadConfig (FilePath (mgr s)) err)), s1))
  /\ (forall st d1 data d2 c' err,
        os_Stat (FilePath (mgr s)) (disk s) = (inr st, d1) ->
        ioutil_ReadFile (FilePath (mgr s)) d1 = (inr data, d2) ->
        yaml_Unmarshal data e = (c', Some err) ->
        exists s1, reloadFromDisk s
                   = Some ((false, Some (ErrUnmarshal (FilePath (mgr s)) err)), s1)).
Proof.
  destruct s as [m h i d t]. cbn [mgr disk]. intros He Hfi.
  unfold reloadFromDisk. repeat split.
  - intros err d1 Hst. repeat step. by eexists.
  - intros st d1 err d2 Hst Hrd. repeat step. rewrite Hfi. cbn [iface_eqb].
    repeat step. by eexists.
  - intros st d1 data d2 c' err Hst Hrd Hun. repeat step. rewrite Hfi.
    cbn [iface_eqb]. repeat step. by eexists.
Qed.

(** C8: on a manager that has no authoritative configuration yet, a
    [Start] whose initial load fails makes a new configuration with the
    factory, applies the defaults (twice: once itself, once in
    [saveToDiskAndUpdate]), gives it version 1 and hands it to
    [writeToDisk].  [Start] returns what that write returns: nil, and then
    the new configuration is the authoritative one, written with its
    encoding and published first, or the error of the write. *)
Theorem Start_after_failed_load (laws : ConfigLaws C) s e b lerr s1 :
  EmptyConfig (mgr s) = Some e ->
  FilePath (mgr s) <> "" ->
  cfg (mgr s) = None ->
  reloadFromDisk (started s) = Some ((b, Some lerr), s1) ->
  let q := length (heap s1) in
  let fresh := committed (ApplyDefaults e) 0 in
  GetVersion fresh = 1%Z
  /\ exists werr s2,
       writeToDisk q (mkState (mgr s1) (heap s1 ++ [fresh]) (infos s1) (disk s1) (trace s1))
       = Some (werr, s2)
       /\ heap s2 !! q = Some fresh
       /\ match werr with
          | Some err => Start s = Some (Some err, s2)
          | None =>
              Start s
              = Some (None,
                      mkState (with_cfg (Some q) (mgr s2)) (heap s2) (infos s2)
                        (disk s2) (trace s2 ++ [EvPublish (Some q)]))
          end
       /\ (forall bytes d1 st d2,
             yaml_Marshal fresh = inr bytes ->
             ioutil_WriteFile (FilePath (mgr s)) bytes (disk s1) = (None, d1) ->
             os_Stat (FilePath (mgr s)) d1 = (inr st, d2) ->
             werr = None
             /\ trace s2 = trace s1 ++ [EvWriteFile (FilePath (mgr s)) bytes;
                                        EvStat (FilePath (mgr s))]
             /\ disk s2 = d2).
Proof.
  intros He Hpath Hm Hload q fresh.
  split; [unfold fresh, committed; by rewrite GetVersion_SetVersion|].
  assert (mgr s1 = mgr (started s)) as Hmgr
    by (by apply (reload_failure_keeps_manager _ b lerr)).
  destruct s as [m h i d t], s1 as [m1 h1 i1 d1 t1].
  unfold started in Hload, Hmgr. cbn [mgr heap infos disk trace] in *. subst m1 q.
  set (s2 := mkState (default_intervals m) (h1 ++ [fresh]) i1 d1 t1).
  assert (heap s2 !! length h1 = Some fresh) as Hq by (cbn; heap).
  destruct (writeToDisk_frame _ _ s2 Hq) as (werr & s3 & tl & Hw & Hh & Hm3 & Ht).
  exists werr, s3. split; [done|]. split; [by rewrite Hh|]. split.
  - assert (Start (mkState m h i d t)
            = save_result (length h1) (writeToDisk (length h1) s2)
              ≫= (λ '(r, st), match r.2 with
                              | Some err => Some (Some err, st)
                              | None => Some (None, mkState (mgr st) (heap st) (infos st) (disk st)
                                                      (trace st ++ [EvPublish (cfg (mgr st))]))
                              end)) as ->.
    { unfold Start. repeat step. rewrite He.
      apply String.eqb_neq in Hpath. rewrite Hpath.
      repeat step. unfold loadFromDisk. repeat step. rewrite Hload. cbv beta iota.
      repeat step. tidy.
      rewrite (run_save_first (length h1) (ApplyDefaults e))
        by (first [exact Hm | heap]).
      tidy. fold fresh. fold s2.
      rewrite Hw. destruct werr as [err|]; cbn; [by step|].
      destruct s3. unfold publish. by repeat step. }
    rewrite Hw. by destruct werr.
  - intros bytes d1' st d2 Hb Hwf Hst. unfold s2 in Hw.
    rewrite (run_writeToDisk _ fresh) in Hw by heap.
    cbn [FilePath default_intervals with_intervals] in Hw.
    rewrite Hb, Hwf, Hst in Hw. injection Hw as <- <-.
    cbn. by rewrite <- app_assoc.
Qed.

(** ** The loop keeps running *)

Lemma running_unfold s :
  running s <->
  is_Some (EmptyConfig (mgr s)) /\ cfg_allocated s /\ is_Some (cfg (mgr s))
  /\ fileInfo_allocated s.
Proof.
  unfold running, cfg_allocated. split.
  - intros (He & (p & Hm & Hp) & Hfi). rewrite Hm. by eauto.
  - intros (He & Hcfg & [p Hm] & Hfi). rewrite Hm in Hcfg. by eauto.
Qed.

(** How a save ends once the candidate is staged: it returns, and the
    pointers of the manager stay allocated. *)
Lemma save_result_total q u s e :
  EmptyConfig (mgr s) = Some e ->
  cfg_allocated s ->
  fileInfo_allocated s ->
  heap s !! q = Some u ->
  exists r s',
    save_result q (writeToDisk q s) = Some (r, s')
    /\ EmptyConfig (mgr s') = Some e
    /\ cfg_allocated s'
    /\ fileInfo_allocated s'
    /\ (is_Some (cfg (mgr s)) -> is_Some (cfg (mgr s')))
    /\ (r.2 = None -> is_Some (cfg (mgr s')))
    /\ heap s' = heap s.
Proof.
  intros He Hcfg Hfi Hq.
  destruct (writeToDisk_frame q u s Hq) as (werr & s' & tl & Hw & Hh & Hmgr & _).
  pose proof (writeToDisk_allocated q u s werr s' Hq Hfi Hw) as Hfi'.
  assert (cfg (mgr s') = cfg (mgr s)) as Hm'
    by (apply (f_equal cfg) in Hmgr; by cbn in Hmgr).
  assert (EmptyConfig (mgr s') = Some e) as He'
    by (apply (f_equal EmptyConfig) in Hmgr; cbn in Hmgr; congruence).
  rewrite Hw. unfold cfg_allocated, fileInfo_allocated in *.
  destruct werr as [err|]; do 2 eexists; (split; [reflexivity|]); cbn.
  - rewrite Hm', Hh. by repeat split.
  - rewrite Hh. repeat split; try done; by eexists.
Qed.

(** [saveToDiskAndUpdate] on a candidate other than the authoritative
    configuration returns, and the pointers of the manager stay allocated. *)
Lemma save_total q u s e :
  EmptyConfig (mgr s) = Some e ->
  cfg_allocated s ->
  fileInfo_allocated s ->
  heap s !! q = Some u ->
  cfg (mgr s) <> Some q ->
  exists r s',
    saveToDiskAndUpdate q s = Some (r, s')
    /\ EmptyConfig (mgr s') = Some e
    /\ cfg_allocated s'
    /\ fileInfo_allocated s'
    /\ (is_Some (cfg (mgr s)) -> is_Some (cfg (mgr s')))
    /\ (r.2 = None -> is_Some (cfg (mgr s'))).
Proof.
  destruct s as [m h i d t]. unfold cfg_allocated, fileInfo_allocated.
  cbn [mgr heap infos]. intros He Hcfg Hfi Hq Hne.
  destruct (cfg m) as [p|] eqn:Hm.
  - destruct Hcfg as [c Hp]. assert (p <> q) as Hpq by congruence.
    destruct (deepValueEqual (SetVersion 0 c) (SetVersion 0 (ApplyDefaults u))) eqn:Hd.
    + rewrite (run_save_same p c q u) by done.
      do 2 eexists. split; [reflexivity|]. cbn. rewrite Hm.
      repeat split; first [done | by eexists | eexists; heap].
    + rewrite (run_save_next p c q u) by done.
      set (s1 := mkState m _ i d t).
      edestruct (save_result_total q (committed u (GetVersion c)) s1 e)
        as (r & s' & -> & ? & ? & ? & Hsome & ? & _);
        [done | unfold cfg_allocated; cbn; rewrite Hm; eexists; heap
        | done | cbn; heap |].
      do 2 eexists. split; [reflexivity|]. repeat split; try done.
      intros _. apply Hsome. cbn. rewrite Hm. by eexists.
  - rewrite (run_save_first q u) by done.
    set (s1 := mkState m _ i d t).
    edestruct (save_result_total q (committed u 0) s1 e)
      as (r & s' & -> & ? & ? & ? & _ & ? & _);
      [done | unfold cfg_allocated; cbn; by rewrite Hm | done | cbn; heap |].
    do 2 eexists. split; [reflexivity|]. by repeat split.
Qed.

Lemma running_trace m h i d t t' :
  running (mkState m h i d t) -> running (mkState m h i d t').
Proof. done. Qed.

(** One iteration of the loop returns and keeps the invariant. *)
Lemma serve_total r s :
  running s -> exists s', serve r s = Some (tt, s') /\ running s'.
Proof.
  intros Hrun. destruct r as [dl| |].
  - destruct Hrun as ([e He] & (p & Hm & [c Hp]) & Hfi).
    destruct s as [m h i d t]. cbn [mgr heap infos] in *.
    destruct (deepcopy_Copy e (Some c)) as [c1 cerr] eqn:Hc.
    destruct (deltaFn dl c1) as [c2 derr] eqn:Hd.
    rewrite (run_serve_delta dl e p c c1 cerr c2 derr) by done.
    destruct derr as [err|].
    { eexists. split; [reflexivity|]. split; [by eexists|].
      split; [|done]. cbn. exists p. split; [done|]. eexists. heap. }
    assert (p <> length h) as Hpq by heap.
    edestruct (save_total (length h) c2 (mkState m (h ++ [c2]) i d t) e)
      as ([changed res] & [m' h' i' d' t'] & -> & He' & Hcfg' & Hfi' & Hsome & _);
      [done | unfold cfg_allocated; cbn; rewrite Hm; eexists; heap | done
      | cbn; heap | cbn; congruence |].
    assert (running (mkState m' h' i' d' t')) as Hrun'.
    { apply running_unfold. repeat split; try done; try (by eexists).
      apply Hsome. cbn. rewrite Hm. by eexists. }
    destruct res as [err|]; [|destruct changed];
      eexists; (split; [reflexivity|]); by eapply running_trace.
  - destruct Hrun as ([e He] & (p & Hm & Hp) & Hfi).
    edestruct (reload_total s e)
      as ([changed res] & [m' h' i' d' t'] & Hr & He' & Hcfg' & Hfi' & Hsome & _);
      [done | unfold cfg_allocated; by rewrite Hm | done |].
    assert (running (mkState m' h' i' d' t')) as Hrun'.
    { apply running_unfold. repeat split; try done; try (by eexists).
      apply Hsome. rewrite Hm. by eexists. }
    unfold serve. rewrite run_bind, Hr. cbv beta iota.
    destruct res as [err|]; [|destruct changed]; unfold publish; repeat step;
      eexists; (split; [reflexivity|]); by eapply running_trace.
  - by exists s.
Qed.

(** The loop, on any finite sequence of requests, returns and keeps the
    invariant: no request makes it panic. *)
Lemma processUpdates_total rs s :
  running s -> exists s', processUpdates rs s = Some (tt, s') /\ running s'.
Proof.
  revert s. induction rs as [|r rs IH]; intros s Hrun.
  - by exists s.
  - destruct (serve_total r s Hrun) as (s1 & Hs & Hrun1).
    destruct (IH s1 Hrun1) as (s' & Hp & Hrun').
    exists s'. split; [|done].
    cbn [processUpdates]. by rewrite run_bind, Hs.
Qed.

(** Whatever the loop has served since, a poll whose stat succeeds reads
    the file: the fingerprint test never spares the read. *)
Lemma poll_always_reads rs s s1 st d1 :
  running s ->
  processUpdates rs s = Some (tt, s1) ->
  os_Stat (FilePath (mgr s1)) (disk s1) = (inr st, d1) ->
  exists r s' tl,
    reloadFromDisk s1 = Some (r, s')
    /\ trace s' = trace s1 ++ [EvStat (FilePath (mgr s1));
                               EvReadFile (FilePath (mgr s1))] ++ tl.
Proof.
  intros Hrun Hp Hst.
  destruct (processUpdates_total rs s Hrun) as (s1' & Hp' & Hrun1).
  rewrite Hp in Hp'. injection Hp' as <-.
  destruct Hrun1 as ([e He] & (p & Hm & Hc) & Hfi).
  edestruct (reload_total s1 e) as (r & s' & Hr & _ & _ & _ & _ & _ & Ht);
    [done | unfold cfg_allocated; by rewrite Hm | done |].
  destruct (Ht st d1 Hst) as [tl Htl]. by exists r, s', tl.
Qed.


(** * More of the package *)

(** ** Loads that commit *)

(** The load of a manager that has no authoritative configuration. *)
Lemma run_reload_first e st d1 data d2 c' m h i d t :
  EmptyConfig m = Some e ->
  cfg m = None ->
  match fileInfo m with Some k => k < length i | None => True end ->
  os_Stat (FilePath m) d = (inr st, d1) ->
  ioutil_ReadFile (FilePath m) d1 = (inr data, d2) ->
  yaml_Unmarshal data e = (c', None) ->
  reloadFromDisk (mkState m h i d t)
  = Some ((true, None),
          mkState (with_fileInfo (Some (length i)) (with_cfg (Some (length h)) m))
            (h ++ [c']) (i ++ [st]) d2
            (t ++ [EvStat (FilePath m); EvReadFile (FilePath m)])).
Proof.
  intros He Hm Hfi Hst Hrd Hun. decode Hfi. rewrite Hm. repeat step.
  rewrite run_DeepEqual_nil. cbv beta iota. by repeat step.
Qed.

(** The load that finds the same version and another content. *)
Lemma run_reload_changed e p c st d1 data d2 c' m h i d t :
  EmptyConfig m = Some e ->
  cfg m = Some p ->
  h !! p = Some c ->
  match fileInfo m with Some k => k < length i | None => True end ->
  os_Stat (FilePath m) d = (inr st, d1) ->
  ioutil_ReadFile (FilePath m) d1 = (inr data, d2) ->
  yaml_Unmarshal data e = (c', None) ->
  GetVersion c = GetVersion c' ->
  deepValueEqual c c' = false ->
  reloadFromDisk (mkState m h i d t)
  = Some ((true, None),
          mkState (with_fileInfo (Some (length i)) (with_cfg (Some (length h)) m))
            (h ++ [c']) (i ++ [st]) d2
            (t ++ [EvStat (FilePath m); EvReadFile (FilePath m)])).
Proof.
  intros He Hm Hp Hfi Hst Hrd Hun Hv Hd. decode Hfi. rewrite Hm. repeat step.
  rewrite Hv, Z.eqb_refl. cbn [negb]. step.
  erewrite run_DeepEqual_ne by heap. rewrite Hd. cbv beta iota. by repeat step.
Qed.

(** X1: a manager without an authoritative configuration takes whatever
    the file decodes to, with whatever version it carries and without
    applying defaults: the decoded object becomes the authoritative
    configuration, the stat just taken becomes the fingerprint, and the load
    reports a change. *)
Theorem first_load_takes_the_file s e st d1 data d2 c' :
  EmptyConfig (mgr s) = Some e ->
  cfg (mgr s) = None ->
  fileInfo_allocated s ->
  os_Stat (FilePath (mgr s)) (disk s) = (inr st, d1) ->
  ioutil_ReadFile (FilePath (mgr s)) d1 = (inr data, d2) ->
  yaml_Unmarshal data e = (c', None) ->
  exists s' q k,
    reloadFromDisk s = Some ((true, None), s')
    /\ cfg (mgr s') = Some q
    /\ heap s' !! q = Some c'
    /\ fileInfo (mgr s') = Some k
    /\ infos s' !! k = Some st
    /\ trace s' = trace s ++ [EvStat (FilePath (mgr s)); EvReadFile (FilePath (mgr s))].
Proof.
  destruct s as [m h i d t]. unfold fileInfo_allocated.
  cbn [mgr heap infos disk trace]. intros He Hm Hfi Hst Hrd Hun.
  eexists _, (length h), (length i).
  split; [by eapply run_reload_first|]. cbn.
  repeat split; first [done | heap].
Qed.

(** X2: a poll that finds the same version and another content commits
    it.  The decoded object becomes the authoritative configuration as it
    is, with the version it shares with the old one; the old configuration is
    not touched; nothing is written; the new pointer is published. *)
Theorem poll_commits_changed_content s e p c st d1 data d2 c' :
  EmptyConfig (mgr s) = Some e ->
  cfg (mgr s) = Some p ->
  heap s !! p = Some c ->
  fileInfo_allocated s ->
  os_Stat (FilePath (mgr s)) (disk s) = (inr st, d1) ->
  ioutil_ReadFile (FilePath (mgr s)) d1 = (inr data, d2) ->
  yaml_Unmarshal data e = (c', None) ->
  GetVersion c = GetVersion c' ->
  deepValueEqual c c' = false ->
  exists s' q,
    serve FilePoll s = Some (tt, s')
    /\ q <> p
    /\ cfg (mgr s') = Some q
    /\ heap s' !! q = Some c'
    /\ version_at s' q = version_at s p
    /\ heap s' !! p = Some c
    /\ infos s' !! length (infos s) = Some st
    /\ fileInfo (mgr s') = Some (length (infos s))
    /\ trace s' = trace s ++ [EvStat (FilePath (mgr s)); EvReadFile (FilePath (mgr s));
                              EvPublish (Some q)].
Proof.
  destruct s as [m h i d t]. unfold fileInfo_allocated, version_at.
  cbn [mgr heap infos disk trace]. intros He Hm Hp Hfi Hst Hrd Hun Hv Hd.
  eexists _, (length h). split.
  { unfold serve. rewrite run_bind.
    rewrite (run_reload_changed e p c st d1 data d2 c') by done.
    cbv beta iota. unfold publish. by do 3 step. }
  cbn. rewrite <- app_assoc. cbn.
  assert ((h ++ [c']) !! length h = Some c') as -> by heap.
  rewrite Hp. cbn. rewrite Hv.
  repeat split; first [done | heap | by apply not_eq_sym; heap].
Qed.

(** X3: a poll whose load fails is absorbed by the loop.  Whether the stat
    fails (the file is gone), the read fails or the decoding fails, the error
    is logged, nothing is published or written, the file is not made again,
    and the manager and the authoritative configuration are as before. *)
Theorem poll_absorbs_load_errors s e p c :
  EmptyConfig (mgr s) = Some e ->
  cfg (mgr s) = Some p ->
  heap s !! p = Some c ->
  fileInfo_allocated s ->
  let path := FilePath (mgr s) in
  (forall err d1,
      os_Stat path (disk s) = (inl err, d1) ->
      exists s',
        serve FilePoll s = Some (tt, s')
        /\ mgr s' = mgr s /\ heap s' !! p = Some c /\ disk s' = d1
        /\ trace s' = trace s ++ [EvStat path; EvLogError (ErrStatConfig path err)])
  /\ (forall st d1 err d2,
        os_Stat path (disk s) = (inr st, d1) ->
        ioutil_ReadFile path d1 = (inl err, d2) ->
        exists s',
          serve FilePoll s = Some (tt, s')
          /\ mgr s' = mgr s /\ heap s' !! p = Some c /\ disk s' = d2
          /\ trace s' = trace s ++ [EvStat path; EvReadFile path;
                                    EvLogError (ErrReadConfig path err)])
  /\ (forall st d1 data d2 c' err,
        os_Stat path (disk s) = (inr st, d1) ->
        ioutil_ReadFile path d1 = (inr data, d2) ->
        yaml_Unmarshal data e = (c', Some err) ->
        exists s',
          serve FilePoll s = Some (tt, s')
          /\ mgr s' = mgr s /\ heap s' !! p = Some c /\ disk s' = d2
          /\ trace s' = trace s ++ [EvStat path; EvReadFile path;
                                    EvLogError (ErrUnmarshal path err)]).
Proof.
  destruct s as [m h i d t]. unfold fileInfo_allocated.
  cbn [mgr heap infos disk trace]. intros He Hm Hp Hfi. cbv zeta.
  pose proof (iface_eqb_fresh _ _ Hfi) as Hne.
  unfold serve, reloadFromDisk. repeat split.
  - intros err d1 Hst. repeat step. eexists. split; [reflexivity|].
    cbn. rewrite <- app_assoc. repeat split; first [done | heap].
  - intros st d1 err d2 Hst Hrd. repeat step. rewrite Hne. cbv beta iota.
    repeat step. eexists. split; [reflexivity|].
    cbn. rewrite <- !app_assoc. repeat split; first [done | heap].
  - intros st d1 data d2 c' err Hst Hrd Hun. repeat step. rewrite Hne.
    cbv beta iota. repeat step. eexists. split; [reflexivity|].
    cbn. rewrite <- !app_assoc. repeat split; first [done | heap].
Qed.

(** ** Updates *)

(** X4: an update whose delta leaves a configuration equal to the
    authoritative one (defaults applied, versions set aside) is answered nil
    and changes nothing: no write, no publication, the manager and the
    authoritative configuration as before.  Whether [copy] failed plays no
    part. *)
Theorem update_without_change (laws : ConfigLaws C) s dl e p c c1 cerr c2 :
  EmptyConfig (mgr s) = Some e ->
  cfg (mgr s) = Some p ->
  heap s !! p = Some c ->
  deepcopy_Copy e (Some c) = (c1, cerr) ->
  deltaFn dl c1 = (c2, None) ->
  deepValueEqual (SetVersion 0 c) (SetVersion 0 (ApplyDefaults c2)) = true ->
  exists s',
    serve (Delta dl) s = Some (tt, s')
    /\ trace s' = trace s ++ [EvReply None]
    /\ mgr s' = mgr s
    /\ disk s' = disk s
    /\ infos s' = infos s
    /\ heap s' !! p = Some c.
Proof.
  destruct s as [m h i d t]. cbn [mgr heap infos disk trace].
  intros He Hm Hp Hc Hd Heq. assert (p <> length h) as Hpq by heap.
  eexists. split.
  { erewrite run_serve_delta by eassumption.
    by rewrite (run_save_same p c (length h) c2) by (first [done | heap]). }
  cbn. rewrite SetVersion_SetVersion, SetVersion_GetVersion.
  repeat split. heap.
Qed.

(** X5: an update whose save fails is answered with the error of the
    save and publishes nothing, and the manager keeps its authoritative
    pointer.  When the encoding fails nothing reaches the file system and the
    manager is as before; when the write fails the reply carries the error of
    the write and the manager is as before, its fingerprint included; when
    the write succeeds and the stat after it fails, the reply carries the
    error of the stat, the file has been written and the fingerprint is nil. *)
Theorem update_with_failing_save s dl e p c c1 cerr c2 :
  EmptyConfig (mgr s) = Some e ->
  cfg (mgr s) = Some p ->
  heap s !! p = Some c ->
  deepcopy_Copy e (Some c) = (c1, cerr) ->
  deltaFn dl c1 = (c2, None) ->
  deepValueEqual (SetVersion 0 c) (SetVersion 0 (ApplyDefaults c2)) = false ->
  (forall err,
      yaml_Marshal (committed c2 (GetVersion c)) = inl err ->
      exists s',
        serve (Delta dl) s = Some (tt, s')
        /\ trace s' = trace s ++ [EvReply (Some (ErrMarshal err))]
        /\ mgr s' = mgr s
        /\ disk s' = disk s)
  /\ (forall bytes err d1,
        yaml_Marshal (committed c2 (GetVersion c)) = inr bytes ->
        ioutil_WriteFile (FilePath (mgr s)) bytes (disk s) = (Some err, d1) ->
        exists s',
          serve (Delta dl) s = Some (tt, s')
          /\ trace s' = trace s ++ [EvWriteFile (FilePath (mgr s)) bytes;
                                    EvReply (Some (ErrWriteFile (FilePath (mgr s)) err))]
          /\ mgr s' = mgr s
          /\ disk s' = d1)
  /\ (forall bytes d1 err d2,
        yaml_Marshal (committed c2 (GetVersion c)) = inr bytes ->
        ioutil_WriteFile (FilePath (mgr s)) bytes (disk s) = (None, d1) ->
        os_Stat (FilePath (mgr s)) d1 = (inl err, d2) ->
        exists s',
          serve (Delta dl) s = Some (tt, s')
          /\ trace s' = trace s ++ [EvWriteFile (FilePath (mgr s)) bytes;
                                    EvStat (FilePath (mgr s));
                                    EvReply (Some (ErrStatFile (FilePath (mgr s)) err))]
          /\ cfg (mgr s') = cfg (mgr s)
          /\ fileInfo (mgr s') = None
          /\ settings (mgr s') = settings (mgr s)
          /\ disk s' = d2).
Proof.
  destruct s as [m h i d t]. cbn [mgr heap infos disk trace].
  intros He Hm Hp Hc Hd Hne. assert (p <> length h) as Hpq by heap.
  split; [|split].
  - intros err Hb. eexists. split.
    { erewrite run_serve_delta by eassumption.
      rewrite (run_save_next p c (length h) c2) by (first [done | heap]).
      rewrite (run_writeToDisk (length h) (committed c2 (GetVersion c))) by heap.
      rewrite Hb. reflexivity. }
    done.
  - intros bytes err d1 Hb Hw. eexists. split.
    { erewrite run_serve_delta by eassumption.
      rewrite (run_save_next p c (length h) c2) by (first [done | heap]).
      rewrite (run_writeToDisk (length h) (committed c2 (GetVersion c))) by heap.
      rewrite Hb, Hw. reflexivity. }
    cbn. by rewrite <- app_assoc.
  - intros bytes d1 err d2 Hb Hw Hs. eexists. split.
    { erewrite run_serve_delta by eassumption.
      rewrite (run_save_next p c (length h) c2) by (first [done | heap]).
      rewrite (run_writeToDisk (length h) (committed c2 (GetVersion c))) by heap.
      rewrite Hb, Hw, Hs. reflexivity. }
    cbn. rewrite <- !app_assoc. by repeat split.
Qed.

(** X6: the loop publishes the pointer it holds, not a copy, and a later
    update that commits writes through it: the configuration that was
    authoritative before the update, which [Next] handed out, has its version
    set to 0 afterwards and is otherwise as it was. *)
Theorem update_zeroes_published_version (laws : ConfigLaws C)
    s dl e p c c1 cerr c2 bytes d1 st d2 :
  EmptyConfig (mgr s) = Some e ->
  cfg (mgr s) = Some p ->
  heap s !! p = Some c ->
  deepcopy_Copy e (Some c) = (c1, cerr) ->
  deltaFn dl c1 = (c2, None) ->
  deepValueEqual (SetVersion 0 c) (SetVersion 0 (ApplyDefaults c2)) = false ->
  yaml_Marshal (committed c2 (GetVersion c)) = inr bytes ->
  ioutil_WriteFile (FilePath (mgr s)) bytes (disk s) = (None, d1) ->
  os_Stat (FilePath (mgr s)) d1 = (inr st, d2) ->
  exists s' q,
    serve (Delta dl) s = Some (tt, s')
    /\ cfg (mgr s') = Some q
    /\ q <> p
    /\ heap s' !! p = Some (SetVersion 0 c)
    /\ version_at s' p = Some 0%Z
    /\ version_at s' q = Some (GoInt.add (GetVersion c) 1).
Proof.
  destruct s as [m h i d t]. unfold version_at. cbn [mgr heap infos disk trace].
  intros He Hm Hp Hc Hd Hne Hb Hw Hs. assert (p <> length h) as Hpq by heap.
  eexists _, (length h). split.
  { erewrite run_serve_delta by eassumption.
    rewrite (run_save_next p c (length h) c2) by (first [done | heap]).
    rewrite (run_writeToDisk (length h) (committed c2 (GetVersion c))) by heap.
    rewrite Hb, Hw, Hs. reflexivity. }
  cbn.
  assert (<[length h:=committed c2 (GetVersion c)]> (<[p:=SetVersion 0 c]> (h ++ [c2])) !! p
          = Some (SetVersion 0 c)) as -> by heap.
  assert (<[length h:=committed c2 (GetVersion c)]> (<[p:=SetVersion 0 c]> (h ++ [c2]))
            !! length h = Some (committed c2 (GetVersion c))) as -> by heap.
  cbn. unfold committed. rewrite !GetVersion_SetVersion.
  repeat split; first [done | by apply not_eq_sym].
Qed.

(** ** Saves *)

(** X7: a save of the authoritative object itself never writes and
    reports no change, whatever the defaults do: [reflect.DeepEqual] answers
    true for one pointer given twice.  The defaults are applied to the
    authoritative configuration in place and its version is put back. *)
Theorem save_of_the_authoritative_object (laws : ConfigLaws C) s p c :
  cfg (mgr s) = Some p ->
  heap s !! p = Some c ->
  exists s',
    saveToDiskAndUpdate p s = Some ((false, None), s')
    /\ heap s' = <[p:=ApplyDefaults c]> (heap s)
    /\ mgr s' = mgr s
    /\ disk s' = disk s
    /\ infos s' = infos s
    /\ trace s' = trace s.
Proof.
  destruct s as [m h i d t]. cbn [mgr heap infos disk trace]. intros Hm Hp.
  eexists. split.
  { unfold saveToDiskAndUpdate. do 4 step. rewrite Hm. repeat step.
    unfold reflect_DeepEqual. rewrite Nat.eqb_refl. repeat step. reflexivity. }
  cbn. rewrite !list_insert_insert_eq.
  by rewrite !SetVersion_SetVersion, SetVersion_GetVersion.
Qed.

(** X8: when the write of a save succeeds and the stat after it fails,
    the save returns the error of the stat and the manager keeps its
    authoritative pointer, although the file now holds the candidate with the
    next version; the manager is left without a fingerprint, so that
    [hasChangedOnDisk] would panic. *)
Theorem save_with_failing_stat s q u v bytes d1 err d2 :
  heap s !! q = Some u ->
  differs s q u v ->
  yaml_Marshal (committed u v) = inr bytes ->
  ioutil_WriteFile (FilePath (mgr s)) bytes (disk s) = (None, d1) ->
  os_Stat (FilePath (mgr s)) d1 = (inl err, d2) ->
  exists s',
    saveToDiskAndUpdate q s
    = Some ((false, Some (ErrStatFile (FilePath (mgr s)) err)), s')
    /\ cfg (mgr s') = cfg (mgr s)
    /\ fileInfo (mgr s') = None
    /\ hasChangedOnDisk s' = None
    /\ trace s' = trace s ++ [EvWriteFile (FilePath (mgr s)) bytes;
                              EvStat (FilePath (mgr s))]
    /\ disk s' = d2.
Proof.
  destruct s as [m h i d t]. unfold differs. cbn [mgr heap infos disk trace].
  intros Hq Hdiff Hb Hw Hs.
  destruct (cfg m) as [p|] eqn:Hm.
  - destruct Hdiff as (Hne & c & Hp & -> & Hd).
    eexists. split.
    { rewrite (run_save_next p c q u) by done.
      rewrite (run_writeToDisk q (committed u (GetVersion c))) by heap.
      rewrite Hb, Hw, Hs. reflexivity. }
    cbn. rewrite <- app_assoc. by repeat split.
  - subst v. eexists. split.
    { rewrite (run_save_first q u) by done.
      rewrite (run_writeToDisk q (committed u 0)) by heap.
      rewrite Hb, Hw, Hs. reflexivity. }
    cbn. rewrite <- app_assoc. by repeat split.
Qed.

(** ** [copy], [writeToDisk], [hasChangedOnDisk] *)

(** X9: [copy] hands out an object that did not exist before, filled with
    what [deepcopy.Copy] made of a new empty configuration, also when the
    copy fails or there is nothing to copy from; the original, every other
    configuration, the manager, the disk and the trace are as they were. *)
Theorem copy_makes_a_new_object s e orig :
  EmptyConfig (mgr s) = Some e ->
  (forall p, orig = Some p -> is_Some (heap s !! p)) ->
  exists q cerr s' x,
    copy orig s = Some ((q, cerr), s')
    /\ heap s !! q = None
    /\ orig <> Some q
    /\ deepcopy_Copy e (match orig with Some p => heap s !! p | None => None end)
       = (x, cerr)
    /\ heap s' = heap s ++ [x]
    /\ heap s' !! q = Some x
    /\ mgr s' = mgr s /\ infos s' = infos s /\ disk s' = disk s
    /\ trace s' = trace s.
Proof.
  destruct s as [m h i d t]. cbn [mgr heap infos disk trace]. intros He Horig.
  assert (h !! length h = None) as Hnew by (by apply lookup_ge_None).
  destruct orig as [p|].
  - destruct (Horig p eq_refl) as [c Hp].
    destruct (deepcopy_Copy e (Some c)) as [x cerr] eqn:Hc.
    exists (length h), cerr. eexists _, x.
    split; [by apply (run_copy e p c)|]. cbn. rewrite Hp.
    repeat split; first [done | heap | congruence].
  - destruct (deepcopy_Copy e None) as [x cerr] eqn:Hc.
    exists (length h), cerr. eexists _, x. split.
    { unfold copy. repeat step. rewrite Hc. repeat step. by tidy. }
    cbn. repeat split; first [done | heap].
Qed.

(** X10: a [writeToDisk] that succeeds hands the encoding of the
    configuration to [ioutil.WriteFile] and takes a new fingerprint, the stat
    made after the write; it changes no configuration, not the authoritative
    pointer, and no older fingerprint. *)
Theorem writeToDisk_takes_a_fingerprint s p c bytes d1 st d2 :
  heap s !! p = Some c ->
  yaml_Marshal c = inr bytes ->
  ioutil_WriteFile (FilePath (mgr s)) bytes (disk s) = (None, d1) ->
  os_Stat (FilePath (mgr s)) d1 = (inr st, d2) ->
  exists s' k,
    writeToDisk p s = Some (None, s')
    /\ fileInfo (mgr s') = Some k
    /\ infos s !! k = None
    /\ infos s' !! k = Some st
    /\ (forall j x, infos s !! j = Some x -> infos s' !! j = Some x)
    /\ heap s' = heap s
    /\ cfg (mgr s') = cfg (mgr s)
    /\ disk s' = d2
    /\ trace s' = trace s ++ [EvWriteFile (FilePath (mgr s)) bytes;
                              EvStat (FilePath (mgr s))].
Proof.
  destruct s as [m h i d t]. cbn [mgr heap infos disk trace].
  intros Hp Hb Hw Hs. eexists _, (length i). split.
  { rewrite (run_writeToDisk p c) by done. rewrite Hb, Hw, Hs. reflexivity. }
  cbn. rewrite <- app_assoc.
  repeat split; first [done | heap | by apply lookup_ge_None | intros; heap].
Qed.

Lemma run_info k st m h i d t :
  i !! k = Some st -> info k (mkState m h i d t) = Some (st, mkState m h i d t).
Proof. intros Hk. unfold info. cbn. by rewrite Hk. Qed.

(** X11: [hasChangedOnDisk] stats the file under the name kept in the
    fingerprint (a base name, not [FilePath]) and answers true exactly when
    the size or the modification time differs from the fingerprint; when the
    stat fails it answers false.  It never replaces the fingerprint. *)
Theorem hasChangedOnDisk_compares_size_and_time s k old :
  fileInfo (mgr s) = Some k ->
  infos s !! k = Some old ->
  (forall err d1,
      os_Stat (Name old) (disk s) = (inl err, d1) ->
      exists s',
        hasChangedOnDisk s = Some (false, s')
        /\ mgr s' = mgr s
        /\ trace s' = trace s ++ [EvStat (Name old)])
  /\ (forall st d1,
        os_Stat (Name old) (disk s) = (inr st, d1) ->
        exists changed s',
          hasChangedOnDisk s = Some (changed, s')
          /\ (changed = true <-> Size st <> Size old \/ ModTime st <> ModTime old)
          /\ mgr s' = mgr s
          /\ heap s' = heap s
          /\ trace s' = trace s ++ [EvStat (Name old)]).
Proof.
  destruct s as [m h i d t]. cbn [mgr heap infos disk trace]. intros Hm Hk.
  unfold hasChangedOnDisk. split.
  - intros err d1 Hs. step. step. rewrite Hm. rewrite run_bind, (run_info k old) by done.
    cbv beta iota. repeat step. by eexists.
  - intros st d1 Hs. step. step. rewrite Hm. rewrite run_bind, (run_info k old) by done.
    cbv beta iota. repeat step.
    rewrite ?run_bind, (run_info (length i) st) by heap. cbv beta iota. step.
    do 2 eexists. split; [reflexivity|]. split; [|done].
    rewrite orb_true_iff, !negb_true_iff, !Z.eqb_neq. tauto.
Qed.

(** ** What is written is what is read back *)

(** The load that finds the configuration it holds. *)
Lemma run_reload_same e p c st d1 data d2 c' m h i d t :
  EmptyConfig m = Some e ->
  cfg m = Some p ->
  h !! p = Some c ->
  match fileInfo m with Some k => k < length i | None => True end ->
  os_Stat (FilePath m) d = (inr st, d1) ->
  ioutil_ReadFile (FilePath m) d1 = (inr data, d2) ->
  yaml_Unmarshal data e = (c', None) ->
  GetVersion c = GetVersion c' ->
  deepValueEqual c c' = true ->
  reloadFromDisk (mkState m h i d t)
  = Some ((false, None),
          mkState m (h ++ [c']) (i ++ [st]) d2
            (t ++ [EvStat (FilePath m); EvReadFile (FilePath m)])).
Proof.
  intros He Hm Hp Hfi Hst Hrd Hun Hv Hd. decode Hfi. rewrite Hm. repeat step.
  rewrite Hv, Z.eqb_refl. cbn [negb]. step.
  erewrite run_DeepEqual_ne by heap. rewrite Hd. cbv beta iota. by repeat step.
Qed.

(** X12: after a save that commits, a poll that reads the written bytes
    back, decodes them to the committed configuration and finds it deeply
    equal to itself is silent: what the manager wrote does not come back as a
    change.  The poll does read the file. *)
Theorem save_then_poll_is_silent s e q u v bytes d1 st d2 st' d3 d4 :
  EmptyConfig (mgr s) = Some e ->
  fileInfo_allocated s ->
  heap s !! q = Some u ->
  differs s q u v ->
  yaml_Marshal (committed u v) = inr bytes ->
  ioutil_WriteFile (FilePath (mgr s)) bytes (disk s) = (None, d1) ->
  os_Stat (FilePath (mgr s)) d1 = (inr st, d2) ->
  os_Stat (FilePath (mgr s)) d2 = (inr st', d3) ->
  ioutil_ReadFile (FilePath (mgr s)) d3 = (inr bytes, d4) ->
  yaml_Unmarshal bytes e = (committed u v, None) ->
  deepValueEqual (committed u v) (committed u v) = true ->
  exists s1 s2,
    saveToDiskAndUpdate q s = Some ((true, None), s1)
    /\ serve FilePoll s1 = Some (tt, s2)
    /\ mgr s2 = mgr s1
    /\ cfg (mgr s2) = Some q
    /\ heap s2 !! q = Some (committed u v)
    /\ trace s2 = trace s1 ++ [EvStat (FilePath (mgr s)); EvReadFile (FilePath (mgr s))].
Proof.
  destruct s as [m h i d t]. unfold fileInfo_allocated, differs.
  cbn [mgr heap infos disk trace].
  intros He Hfi Hq Hdiff Hb Hw Hs Hs' Hrd Hun Heq.
  assert (exists h1,
             saveToDiskAndUpdate q (mkState m h i d t)
             = Some ((true, None),
                     mkState (with_cfg (Some q) (with_fileInfo (Some (length i)) m))
                       h1 (i ++ [st]) d2
                       ((t ++ [EvWriteFile (FilePath m) bytes]) ++ [EvStat (FilePath m)]))
             /\ h1 !! q = Some (committed u v)) as (h1 & Hsave & Hq1).
  { destruct (cfg m) as [p|] eqn:Hm.
    - destruct Hdiff as (Hne & c & Hp & -> & Hd). eexists. split.
      + rewrite (run_save_next p c q u) by done.
        rewrite (run_writeToDisk q (committed u (GetVersion c))) by heap.
        rewrite Hb, Hw, Hs. reflexivity.
      + heap.
    - subst v. eexists. split.
      + rewrite (run_save_first q u) by done.
        rewrite (run_writeToDisk q (committed u 0)) by heap.
        rewrite Hb, Hw, Hs. reflexivity.
      + heap. }
  do 2 eexists. split; [exact Hsave|]. split.
  { unfold serve. rewrite run_bind.
    rewrite (run_reload_same e q (committed u v) st' d3 bytes d4 (committed u v));
      [reflexivity|done..| |done|done|done|done|done].
    cbn. rewrite length_app. cbn. lia. }
  cbn. repeat split. heap.
Qed.


(** ** [Start] on a file that loads *)

(** [Start] on a manager not started before, whose file loads: the loaded
    configuration is copied and the copy is saved. *)
Lemma run_Start_loaded e st d1 data d2 c' c1 cerr m h i d t :
  EmptyConfig m = Some e ->
  FilePath m <> "" ->
  cfg m = None ->
  match fileInfo m with Some k => k < length i | None => True end ->
  os_Stat (FilePath m) d = (inr st, d1) ->
  ioutil_ReadFile (FilePath m) d1 = (inr data, d2) ->
  yaml_Unmarshal data e = (c', None) ->
  deepcopy_Copy e (Some c') = (c1, cerr) ->
  let m1 := with_fileInfo (Some (length i))
              (with_cfg (Some (length h)) (default_intervals m)) in
  let s2 := mkState m1 ((h ++ [c']) ++ [c1]) (i ++ [st]) d2
              (t ++ [EvStat (FilePath m); EvReadFile (FilePath m)]) in
  Start (mkState m h i d t)
  = match cerr with
    | Some err => Some (Some (ErrInitialUpdate err), s2)
    | None =>
        match saveToDiskAndUpdate (length (h ++ [c'])) s2 with
        | Some ((_, Some err), s3) => Some (Some (ErrInitialUpdate err), s3)
        | Some ((_, None), mkState m3 h3 i3 d3 t3) =>
            Some (None, mkState m3 h3 i3 d3 (t3 ++ [EvPublish (cfg m3)]))
        | None => None
        end
    end.
Proof.
  intros He Hpath Hm Hfi Hst Hrd Hun Hc m1 s2.
  unfold Start. do 2 step. rewrite He.
  apply String.eqb_neq in Hpath. rewrite Hpath.
  do 3 step. unfold loadFromDisk. rewrite run_bind.
  rewrite (run_reload_first e st d1 data d2 c') by done.
  cbv beta iota. do 3 step.
  cbn [cfg with_fileInfo with_cfg].
  rewrite run_bind, (run_copy e (length h) c' c1 cerr) by (first [done | heap]).
  cbv beta iota. cbn [FilePath default_intervals with_intervals].
  fold m1. fold s2. destruct cerr as [err|]; [by repeat step|].
  do 2 rewrite run_bind.
  destruct (saveToDiskAndUpdate _ s2) as [[[changed res] [m3 h3 i3 d3 t3]]|]; [|done].
  cbv beta iota. repeat step. destruct res as [err|]; [by repeat step|].
  unfold publish. by repeat step.
Qed.



(** X16: when the file loads and the update that follows fails, [Start]
    returns the error wrapped as the failure of the initial update and
    publishes nothing, but the manager is left holding the loaded
    configuration.  This is so when [copy] fails, and then nothing is
    written, and when the encoding of the defaulted copy fails. *)
Theorem Start_initial_update_failure s e st d1 data d2 c' c1 :
  EmptyConfig (mgr s) = Some e ->
  FilePath (mgr s) <> "" ->
  cfg (mgr s) = None ->
  fileInfo_allocated s ->
  os_Stat (FilePath (mgr s)) (disk s) = (inr st, d1) ->
  ioutil_ReadFile (FilePath (mgr s)) d1 = (inr data, d2) ->
  yaml_Unmarshal data e = (c', None) ->
  let loaded := length (heap s) in
  let read := trace s ++ [EvStat (FilePath (mgr s)); EvReadFile (FilePath (mgr s))] in
  (forall err,
      deepcopy_Copy e (Some c') = (c1, Some err) ->
      exists s',
        Start s = Some (Some (ErrInitialUpdate err), s')
        /\ cfg (mgr s') = Some loaded
        /\ heap s' !! loaded = Some c'
        /\ trace s' = read)
  /\ (forall err,
        deepcopy_Copy e (Some c') = (c1, None) ->
        deepValueEqual (SetVersion 0 c') (SetVersion 0 (ApplyDefaults c1)) = false ->
        yaml_Marshal (committed c1 (GetVersion c')) = inl err ->
        exists s',
          Start s = Some (Some (ErrInitialUpdate (ErrMarshal err)), s')
          /\ cfg (mgr s') = Some loaded
          /\ heap s' !! loaded = Some (SetVersion 0 c')
          /\ trace s' = read).
Proof.
  destruct s as [m h i d t]. unfold fileInfo_allocated.
  cbn [mgr heap infos disk trace].
  intros He Hpath Hm Hfi Hst Hrd Hun. cbv zeta.
  assert (length h <> length (h ++ [c'])) as Hne by (rewrite length_app; cbn; lia).
  split.
  - intros err Hc. eexists. split.
    { by rewrite (run_Start_loaded e st d1 data d2 c' c1 (Some err)) by done. }
    cbn. repeat split; first [done | heap].
  - intros err Hc Hd Hb. eexists. split.
    { rewrite (run_Start_loaded e st d1 data d2 c' c1 None) by done. cbv zeta.
      rewrite (run_save_next (length h) c' (length (h ++ [c'])) c1)
        by (first [done | heap]).
      rewrite (run_writeToDisk (length (h ++ [c'])) (committed c1 (GetVersion c')))
        by heap.
      rewrite Hb. reflexivity. }
    cbn. repeat split; first [done | heap].
Qed.

(** ** The manager as a whole *)

(** ** What the traces hold *)

Lemma count_app f (t1 t2 : list Event) :
  count f (t1 ++ t2) = count f t1 + count f t2.
Proof. induction t1 as [|ev t1 IH]; cbn; [done|]. rewrite IH. lia. Qed.

Lemma file_events_app (t1 t2 : list Event) :
  forallb is_file_event (t1 ++ t2) = true <->
  forallb is_file_event t1 = true /\ forallb is_file_event t2 = true.
Proof.
  induction t1 as [|ev t1 IH]; cbn; [tauto|].
  rewrite !andb_true_iff, IH. tauto.
Qed.

Lemma file_events_silent (tl : list Event) :
  forallb is_file_event tl = true ->
  count is_reply tl = 0 /\ count is_publish tl = 0.
Proof.
  induction tl as [|ev tl IH]; cbn; [done|].
  intros [Hev Htl]%andb_true_iff. destruct (IH Htl) as [-> ->].
  by destruct ev.
Qed.

(** [writeToDisk] touches the trace by file events only, one write at most. *)
Lemma writeToDisk_events p c s :
  heap s !! p = Some c ->
  exists werr s' tl,
    writeToDisk p s = Some (werr, s')
    /\ trace s' = trace s ++ tl
    /\ forallb is_file_event tl = true
    /\ count is_write tl <= 1.
Proof.
  destruct s as [m h i d t]. cbn [heap trace]. intros Hp.
  rewrite (run_writeToDisk p c) by done.
  destruct (yaml_Marshal c) as [err|bytes].
  { do 2 eexists. exists []. split; [reflexivity|]. cbn. rewrite app_nil_r.
    repeat split; lia. }
  destruct (ioutil_WriteFile _ _ _) as [[err|] d1].
  { by do 3 eexists. }
  destruct (os_Stat _ _) as [[err|st] d2]; cbv zeta;
    do 3 eexists; (split; [reflexivity|]); cbn; rewrite <- app_assoc;
    (split; [reflexivity|]); by cbn.
Qed.

(** So does [saveToDiskAndUpdate]. *)
Lemma save_events q u s :
  cfg_allocated s ->
  heap s !! q = Some u ->
  cfg (mgr s) <> Some q ->
  exists r s' tl,
    saveToDiskAndUpdate q s = Some (r, s')
    /\ trace s' = trace s ++ tl
    /\ forallb is_file_event tl = true
    /\ count is_write tl <= 1.
Proof.
  destruct s as [m h i d t]. unfold cfg_allocated. cbn [mgr heap trace].
  intros Hcfg Hq Hne.
  assert (forall h1 x,
             h1 !! q = Some x ->
             exists r s' tl,
               save_result q (writeToDisk q (mkState m h1 i d t)) = Some (r, s')
               /\ trace s' = t ++ tl
               /\ forallb is_file_event tl = true
               /\ count is_write tl <= 1) as Hstaged.
  { intros h1 x Hx.
    destruct (writeToDisk_events q x (mkState m h1 i d t) Hx)
      as (werr & s' & tl & -> & Ht & Hfiles & Hw).
    destruct werr as [err|]; do 2 eexists; exists tl; by split. }
  destruct (cfg m) as [p|] eqn:Hm.
  - destruct Hcfg as [c Hp]. assert (p <> q) as Hpq by congruence.
    destruct (deepValueEqual (SetVersion 0 c) (SetVersion 0 (ApplyDefaults u))) eqn:Hd.
    + rewrite (run_save_same p c q u) by done.
      do 2 eexists. exists []. split; [reflexivity|]. cbn. rewrite app_nil_r.
      repeat split; lia.
    + rewrite (run_save_next p c q u) by done. eapply Hstaged. heap.
  - rewrite (run_save_first q u) by done. eapply Hstaged. heap.
Qed.

(** [reloadFromDisk] touches the trace by file events only, and writes only
    to reject a version. *)
Lemma reload_events s e :
  EmptyConfig (mgr s) = Some e ->
  cfg_allocated s ->
  fileInfo_allocated s ->
  exists r s' tl,
    reloadFromDisk s = Some (r, s')
    /\ trace s' = trace s ++ tl
    /\ forallb is_file_event tl = true
    /\ count is_write tl <= 1
    /\ (count is_write tl = 0
        \/ exists expected found, r = (false, Some (ErrVersionMismatch expected found))).
Proof.
  destruct s as [m h i d t]. unfold fileInfo_allocated, cfg_allocated.
  cbn [mgr heap infos disk trace]. intros He Hcfg Hfi.
  pose proof (iface_eqb_fresh _ _ Hfi) as Hne.
  unfold reloadFromDisk. do 4 step.
  destruct (os_Stat (FilePath m) d) as [[serr|st] d1] eqn:Hst; do 2 step;
    [|rewrite Hne; cbv beta iota;
      destruct (ioutil_ReadFile (FilePath m) d1) as [[rerr|data] d2] eqn:Hrd;
      repeat step; tidy;
      [|destruct (yaml_Unmarshal data e) as [c' [uerr|]] eqn:Hun;
        repeat step; tidy]].
  all: destruct (cfg m) as [p|] eqn:Hm; [destruct Hcfg as [c Hp]|].
  all: try (do 3 eexists; (split; [reflexivity|]); cbn [trace];
            (split; [reflexivity|]); cbn; repeat split; first [lia | by left]).
  all: repeat step.
  all: destruct (GetVersion c =? GetVersion c')%Z; cbn [negb]; repeat step;
    [unfold reflect_DeepEqual; destruct (Nat.eqb p (length h)); repeat step;
     [|destruct (deepValueEqual c c'); repeat step];
     do 3 eexists; (split; [reflexivity|]); cbn [trace];
     (split; [reflexivity|]); cbn; repeat split; first [lia | by left]|].
  all: set (s2 := mkState m (h ++ [c']) _ _ _);
    assert (heap s2 !! p = Some c) as Hp2 by (cbn; heap);
    destruct (writeToDisk_frame p c s2 Hp2) as (werr & s' & tl0 & Hw & Hh & _);
    destruct (writeToDisk_events p c s2 Hp2) as (werr' & s'' & tl & Hw' & Ht & Hfiles & Hcount);
    rewrite Hw in Hw'; injection Hw' as <- <-;
    rewrite Hw; cbv beta iota; destruct s' as [m' h' i' d' t'];
    cbn in Hh, Ht; subst h' t';
    repeat step; do 2 eexists;
    exists ([EvStat (FilePath m); EvReadFile (FilePath m)] ++ tl);
    (split; [reflexivity|]); cbn [trace];
    (split; [by rewrite <- !app_assoc|]); cbn;
    repeat split; first [done | by eauto].
Qed.

(** One iteration of the loop: one reply when the request is a delta and
    none otherwise, one publication at most, one write at most. *)
Lemma serve_events r s :
  running s ->
  exists s' tl,
    serve r s = Some (tt, s')
    /\ trace s' = trace s ++ tl
    /\ count is_reply tl = (if is_delta r then 1 else 0)
    /\ count is_publish tl <= 1
    /\ count is_write tl <= 1.
Proof.
  intros ([e He] & (p & Hm & [c Hp]) & Hfi). destruct r as [dl| |].
  - destruct s as [m h i d t]. cbn [mgr heap infos trace] in *.
    destruct (deepcopy_Copy e (Some c)) as [c1 cerr] eqn:Hc.
    destruct (deltaFn dl c1) as [c2 derr] eqn:Hd.
    rewrite (run_serve_delta dl e p c c1 cerr c2 derr) by done.
    destruct derr as [err|].
    { do 2 eexists. split; [reflexivity|]. cbn. split; [reflexivity|]. cbn.
      repeat split; lia. }
    assert (p <> length h) as Hpq by heap.
    edestruct (save_events (length h) c2 (mkState m (h ++ [c2]) i d t))
      as ([changed res] & [m' h' i' d' t'] & tl & -> & Ht & Hfiles & Hw);
      [unfold cfg_allocated; cbn; rewrite Hm; eexists; heap | cbn; heap
      | cbn; congruence |].
    cbn in Ht. subst t'. destruct (file_events_silent tl Hfiles) as [Hr Hpub].
    destruct res as [err|]; [|destruct changed];
      do 2 eexists; (split; [reflexivity|]); cbn [trace]; rewrite <- app_assoc;
      (split; [reflexivity|]); rewrite !count_app, Hr, Hpub; cbn;
      repeat split; lia.
  - edestruct (reload_events s e)
      as ([changed res] & [m' h' i' d' t'] & tl & Hr & Ht & Hfiles & Hw & _);
      [done | unfold cfg_allocated; by rewrite Hm | done |].
    cbn in Ht. subst t'. destruct (file_events_silent tl Hfiles) as [Hrep Hpub].
    unfold serve. rewrite run_bind, Hr. cbv beta iota.
    destruct res as [err|]; [|destruct changed]; unfold publish; repeat step;
      do 2 eexists; (split; [reflexivity|]); cbn [trace]; rewrite <- ?app_assoc;
      (split; [reflexivity|]); rewrite ?count_app, ?Hrep, ?Hpub; cbn;
      rewrite ?app_nil_r, ?Hrep, ?Hpub; repeat split; lia.
  - exists s, []. cbn. rewrite app_nil_r. repeat split; lia.
Qed.

Lemma processUpdates_events rs s :
  running s ->
  exists s' tl,
    processUpdates rs s = Some (tt, s')
    /\ trace s' = trace s ++ tl
    /\ count is_reply tl = deltas rs
    /\ count is_publish tl <= length rs
    /\ count is_write tl <= length rs.
Proof.
  revert s. induction rs as [|r rs IH]; intros s Hrun.
  - exists s, []. cbn. rewrite app_nil_r. repeat split; lia.
  - destruct (serve_total r s Hrun) as (s1 & Hs & Hrun1).
    destruct (serve_events r s Hrun) as (s1' & tl1 & Hs' & Ht1 & Hr1 & Hp1 & Hw1).
    rewrite Hs in Hs'. injection Hs' as <-.
    destruct (IH s1 Hrun1) as (s' & tl & Hloop & Ht & Hr & Hp & Hw).
    exists s', (tl1 ++ tl). split.
    { cbn [processUpdates]. by rewrite run_bind, Hs. }
    rewrite Ht, Ht1, <- app_assoc, !count_app. cbn. repeat split; lia.
Qed.


(** ** [nextHttpPoll] *)

(** X21: the deadline of the next http poll.  Without randomization it is
    exactly one interval from now.  With randomization and a positive
    interval [n] whose one and a half does not overflow, it lies between half
    an interval and one and a half intervals from now: at least
    [now + n / 2] and before [now + n / 2 + n]. *)
Theorem nextHttpPoll_deadline now draw (m : Manager (C:=C)) :
  (RandomizeHttpPollInterval m = false ->
   nextHttpPoll now draw m = Some (now + HttpPollInterval m)%Z)
  /\ (RandomizeHttpPollInterval m = true ->
      (0 < HttpPollInterval m)%Z ->
      (Z.quot (HttpPollInterval m) 2 + HttpPollInterval m <= GoInt.max_int + 1)%Z ->
      exists deadline,
        nextHttpPoll now draw m = Some deadline
        /\ (now + Z.quot (HttpPollInterval m) 2 <= deadline
            < now + Z.quot (HttpPollInterval m) 2 + HttpPollInterval m)%Z).
Proof.
  unfold nextHttpPoll, rand_Int63n. split.
  - by intros ->.
  - intros -> Hpos Hmax.
    destruct (Z.ltb_spec 0 (HttpPollInterval m)) as [_|]; [|lia].
    cbn. eexists. split; [reflexivity|].
    pose proof (Z.mod_pos_bound draw (HttpPollInterval m) Hpos) as Hr.
    assert (0 <= Z.quot (HttpPollInterval m) 2)%Z as Hq
      by (apply Z.quot_pos; lia).
    set (r := (draw mod HttpPollInterval m)%Z) in *.
    set (half := Z.quot (HttpPollInterval m) 2) in *. clearbody r half.
    assert (0 < 2 ^ 63)%Z as Hpow by done.
    unfold GoInt.add. rewrite GoInt_wrap_small;
      unfold GoInt.min_int, GoInt.max_int in *; lia.
Qed.

(** X22: [Start] replaces only an interval that is zero, so a negative
    [HttpPollInterval] survives it.  With randomization, the first thing the
    loop does then panics in [rand.Int63n]; with an interval left at zero the
    deadline is between 30 and 90 seconds from now. *)
Theorem nextHttpPoll_after_defaults now draw (m : Manager (C:=C)) :
  RandomizeHttpPollInterval m = true ->
  ((HttpPollInterval m < 0)%Z -> nextHttpPoll now draw (default_intervals m) = None)
  /\ (HttpPollInterval m = 0%Z ->
      exists deadline,
        nextHttpPoll now draw (default_intervals m) = Some deadline
        /\ (now + 30 * second <= deadline < now + 90 * second)%Z).
Proof.
  intros Hrand. unfold nextHttpPoll, rand_Int63n, default_intervals. cbn.
  rewrite Hrand. split.
  - intros Hneg. destruct (Z.eqb_spec (HttpPollInterval m) 0) as [|_]; [lia|].
    by destruct (Z.ltb_spec 0 (HttpPollInterval m)) as [|_]; [lia|].
  - intros ->. cbn. eexists. split; [reflexivity|].
    unfold minute, second.
    change (60 * 1000000000)%Z with 60000000000%Z.
    change (Z.quot 60000000000 2) with 30000000000%Z.
    pose proof (Z.mod_pos_bound draw 60000000000 eq_refl) as Hr.
    set (r := (draw mod 60000000000)%Z) in *. clearbody r.
    assert (2 ^ 63 = 9223372036854775808)%Z as Hpow by done.
    unfold GoInt.add. rewrite GoInt_wrap_small;
      unfold GoInt.min_int, GoInt.max_int in *; lia.
Qed.

(** ** The settings are never touched *)

Lemma keeps_ret {A} (a : A) : keeps_settings (mret (M := M (C:=C) (Disk:=Disk)) a).
Proof. by intros s a' s' [= _ <-]. Qed.

Lemma keeps_bind {A B} (x : M (C:=C) (Disk:=Disk) A) (f : A -> M B) :
  keeps_settings x -> (forall a, keeps_settings (f a)) -> keeps_settings (x ≫= f).
Proof.
  intros Hx Hf s b s'. rewrite run_bind.
  destruct (x s) as [[a s1]|] eqn:Hrun; [|done].
  intros Hrun'. rewrite (Hf a _ _ _ Hrun'). by eapply Hx.
Qed.

Lemma keeps_panic {A} : keeps_settings (panic (C:=C) (Disk:=Disk) (A:=A)).
Proof. by intros s a s'. Qed.

Lemma keeps_pure {A} (x : M (C:=C) (Disk:=Disk) A) :
  (forall s a s', x s = Some (a, s') -> mgr s' = mgr s) -> keeps_settings x.
Proof. intros Hx s a s' Hrun. by rewrite (Hx _ _ _ Hrun). Qed.

Lemma keeps_set_mgr (f : Manager (C:=C) -> Manager) :
  (forall m, settings (f m) = settings m) ->
  keeps_settings (set_mgr (Disk:=Disk) f).
Proof. intros Hf s a s' [= _ <-]. apply Hf. Qed.

Lemma keeps_this : keeps_settings (this (C:=C) (Disk:=Disk)).
Proof. apply keeps_pure. by intros s a s' [= _ <-]. Qed.

Lemma keeps_emit ev : keeps_settings (emit (C:=C) (Disk:=Disk) ev).
Proof. apply keeps_pure. by intros s a s' [= _ <-]. Qed.

Lemma keeps_load p : keeps_settings (load (C:=C) (Disk:=Disk) p).
Proof.
  apply keeps_pure. intros s a s'. unfold load.
  destruct (heap s !! p); [|done]. by intros [= _ <-].
Qed.

Lemma keeps_store p c : keeps_settings (store (Disk:=Disk) p c).
Proof.
  apply keeps_pure. intros s a s'. unfold store.
  destruct (heap s !! p); [|done]. by intros [= _ <-].
Qed.

Lemma keeps_info k : keeps_settings (info (C:=C) (Disk:=Disk) k).
Proof.
  apply keeps_pure. intros s a s'. unfold info.
  destruct (infos s !! k); [|done]. by intros [= _ <-].
Qed.

Lemma keeps_EmptyConfig : keeps_settings (call_EmptyConfig (C:=C) (Disk:=Disk)).
Proof.
  apply keeps_pure. intros s a s'. unfold call_EmptyConfig, alloc.
  destruct (EmptyConfig (mgr s)); [|done]. by intros [= _ <-].
Qed.

Lemma keeps_stat path : keeps_settings (stat (C:=C) path).
Proof.
  apply keeps_pure. intros s a s'. unfold stat.
  destruct (os_Stat path (disk s)) as [[err|st] d]; by intros [= _ <-].
Qed.

Lemma keeps_readFile path : keeps_settings (readFile (C:=C) path).
Proof.
  apply keeps_pure. intros s a s'. unfold readFile.
  destruct (ioutil_ReadFile path (disk s)) as [r d]. by intros [= _ <-].
Qed.

Lemma keeps_writeFile path data : keeps_settings (writeFile (C:=C) path data).
Proof.
  apply keeps_pure. intros s a s'. unfold writeFile.
  destruct (ioutil_WriteFile path data (disk s)) as [r d]. by intros [= _ <-].
Qed.

Lemma keeps_nextHttpPoll now draw :
  keeps_settings (call_nextHttpPoll (C:=C) (Disk:=Disk) now draw).
Proof.
  apply keeps_pure. intros s a s'. unfold call_nextHttpPoll.
  destruct (nextHttpPoll now draw (mgr s)); [|done]. by intros [= _ <-].
Qed.

Create HintDb frame.
#[local] Hint Resolve keeps_panic keeps_this keeps_emit keeps_load keeps_store
  keeps_info keeps_EmptyConfig keeps_stat keeps_readFile keeps_writeFile
  keeps_nextHttpPoll : frame.

(** Follows the shape of a method: one lemma per statement. *)
Ltac frame :=
  repeat first
    [ solve [auto with frame]
    | apply keeps_ret
    | apply keeps_set_mgr; by intros []
    | apply keeps_bind; [|intros ?]
    | match goal with
      | |- keeps_settings (match ?x with _ => _ end) => destruct x
      | |- keeps_settings (if ?x then _ else _) => destruct x
      end ].

Lemma keeps_GetVersion p : keeps_settings (cfg_GetVersion (C:=C) (Disk:=Disk) p).
Proof. unfold cfg_GetVersion. frame. Qed.

Lemma keeps_SetVersion p v : keeps_settings (cfg_SetVersion (C:=C) (Disk:=Disk) p v).
Proof. unfold cfg_SetVersion. frame. Qed.

Lemma keeps_ApplyDefaults p : keeps_settings (cfg_ApplyDefaults (C:=C) (Disk:=Disk) p).
Proof. unfold cfg_ApplyDefaults. frame. Qed.

Lemma keeps_unmarshal data p : keeps_settings (unmarshal (C:=C) (Disk:=Disk) data p).
Proof. unfold unmarshal. frame. Qed.

Lemma keeps_DeepEqual a b : keeps_settings (reflect_DeepEqual (C:=C) (Disk:=Disk) a b).
Proof. unfold reflect_DeepEqual. frame. Qed.

#[local] Hint Resolve keeps_GetVersion keeps_SetVersion keeps_ApplyDefaults
  keeps_unmarshal keeps_DeepEqual : frame.

Lemma keeps_writeToDisk p : keeps_settings (writeToDisk (C:=C) p).
Proof. unfold writeToDisk. frame. Qed.

#[local] Hint Resolve keeps_writeToDisk : frame.

Lemma keeps_reloadFromDisk : keeps_settings (reloadFromDisk (C:=C) (Disk:=Disk)).
Proof. unfold reloadFromDisk. frame. Qed.

Lemma keeps_saveToDiskAndUpdate p : keeps_settings (saveToDiskAndUpdate (C:=C) p).
Proof. unfold saveToDiskAndUpdate. frame. Qed.

Lemma keeps_hasChangedOnDisk : keeps_settings (hasChangedOnDisk (C:=C) (Disk:=Disk)).
Proof. unfold hasChangedOnDisk. frame. Qed.

Lemma keeps_copy orig : keeps_settings (copy (C:=C) (Disk:=Disk) orig).
Proof. unfold copy. frame. Qed.

Lemma keeps_deltaFn dl p : keeps_settings (call_deltaFn (C:=C) (Disk:=Disk) dl p).
Proof. unfold call_deltaFn. frame. Qed.

Lemma keeps_publish : keeps_settings (publish (C:=C) (Disk:=Disk)).
Proof. unfold publish. frame. Qed.

#[local] Hint Resolve keeps_reloadFromDisk keeps_saveToDiskAndUpdate keeps_copy
  keeps_deltaFn keeps_publish : frame.

Lemma keeps_serve r : keeps_settings (serve (C:=C) (Disk:=Disk) r).
Proof. unfold serve. frame. Qed.

#[local] Hint Resolve keeps_serve : frame.

Lemma keeps_processUpdates rs : keeps_settings (processUpdates (C:=C) (Disk:=Disk) rs).
Proof. induction rs as [|r rs IH]; cbn [processUpdates]; frame. Qed.

Lemma keeps_iterations steps nextHttp :
  keeps_settings (iterations (C:=C) (Disk:=Disk) nextHttp steps).
Proof.
  revert nextHttp. induction steps as [|[r [now draw]] steps IH]; intros nextHttp;
    cbn [iterations iteration]; frame.
Qed.

(** ** The loop with its clock *)

Lemma settings_HttpPollInterval m m' :
  settings m' = settings m ->
  HttpPollInterval m' = HttpPollInterval m
  /\ RandomizeHttpPollInterval m' = RandomizeHttpPollInterval m.
Proof. destruct m, m'. by intros [= _ _ _ _ _ -> ->]. Qed.

Lemma poll_interval_ok_settings m m' :
  settings m' = settings m -> poll_interval_ok m -> poll_interval_ok m'.
Proof.
  intros [Hi Hr]%settings_HttpPollInterval. unfold poll_interval_ok.
  by rewrite Hi, Hr.
Qed.

Lemma run_nextHttpPoll now draw s :
  poll_interval_ok (mgr s) ->
  exists deadline, call_nextHttpPoll now draw s = Some (deadline, s).
Proof.
  unfold poll_interval_ok, call_nextHttpPoll, nextHttpPoll, rand_Int63n. intros Hok.
  destruct (RandomizeHttpPollInterval (mgr s)); [|by eexists].
  apply Z.ltb_lt in Hok; [|done]. rewrite Hok. by eexists.
Qed.

Lemma nextHttpPoll_panics now draw s :
  RandomizeHttpPollInterval (mgr s) = true ->
  (HttpPollInterval (mgr s) <= 0)%Z ->
  call_nextHttpPoll now draw s = None.
Proof.
  unfold call_nextHttpPoll, nextHttpPoll, rand_Int63n. intros -> Hle.
  apply Z.ltb_ge in Hle. by rewrite Hle.
Qed.

(** With an interval that [rand.Int63n] accepts, the loop with its clock
    does what its iterations do. *)
Lemma iterations_run steps nextHttp s s' :
  poll_interval_ok (mgr s) ->
  processUpdates (requests steps) s = Some (tt, s') ->
  exists deadline, iterations nextHttp steps s = Some (deadline, s').
Proof.
  revert nextHttp s. induction steps as [|[r [now draw]] steps IH]; intros nextHttp s Hok.
  - intros [= <-]. by eexists.
  - cbn [requests map fst processUpdates iterations iteration].
    rewrite !run_bind.
    destruct (serve r s) as [[[] s1]|] eqn:Hserve; [|done].
    assert (poll_interval_ok (mgr s1)) as Hok1
      by (eapply poll_interval_ok_settings; [by eapply keeps_serve|done]).
    intros Hrest. destruct r as [dl| |].
    + rewrite run_ret. by apply IH.
    + rewrite run_ret. by apply IH.
    + destruct (run_nextHttpPoll now draw s1 Hok1) as [deadline ->]. by apply IH.
Qed.

Lemma clocked_run now draw steps s s' :
  poll_interval_ok (mgr s) ->
  processUpdates (requests steps) s = Some (tt, s') ->
  exists deadline, processUpdates_clocked now draw steps s = Some (deadline, s').
Proof.
  intros Hok Hrun. unfold processUpdates_clocked. rewrite run_bind.
  destruct (run_nextHttpPoll now draw s Hok) as [deadline ->].
  by apply iterations_run.
Qed.

(** [Start] changes no setting but the intervals it finds at zero, and it
    does so before anything that can fail. *)
Lemma Start_settings s r s' :
  Start s = Some (r, s') ->
  (s' = s /\ r <> None)
  \/ settings (mgr s') = settings (default_intervals (mgr s)).
Proof.
  unfold Start. rewrite run_bind. unfold this at 1. cbv beta iota.
  destruct (EmptyConfig (mgr s)); [|intros [= <- <-]; by left].
  destruct (String.eqb (FilePath (mgr s)) ""); [intros [= <- <-]; by left|].
  rewrite run_bind. unfold set_mgr at 1. cbv beta iota.
  intros Hrun. right.
  match type of Hrun with ?x ?s0 = _ =>
    assert (keeps_settings x) as Hkeep by (unfold loadFromDisk; frame)
  end.
  by rewrite (Hkeep _ _ _ Hrun).
Qed.


(** X19: the loop serves one request per iteration, without coalescing and
    without extra work: over any sequence of requests it publishes at most
    once and writes the file at most once per request. *)
Theorem one_publication_and_one_write_per_request now draw steps s :
  running s ->
  poll_interval_ok (mgr s) ->
  exists deadline s',
    processUpdates_clocked now draw steps s = Some (deadline, s')
    /\ count is_publish (trace s') <= count is_publish (trace s) + length steps
    /\ count is_write (trace s') <= count is_write (trace s) + length steps.
Proof.
  intros Hrun Hok.
  destruct (processUpdates_events (requests steps) s Hrun)
    as (s' & tl & Hloop & Ht & _ & Hp & Hw).
  destruct (clocked_run now draw steps s s' Hok Hloop) as [deadline Hclock].
  exists deadline, s'. split; [done|].
  unfold requests in Hp, Hw. rewrite length_map in Hp, Hw.
  rewrite Ht, !count_app. split; by apply Nat.add_le_mono_l.
Qed.

(** X23: a negative [HttpPollInterval] with randomization passes [Start]
    and stops the loop.  [Start] replaces only an interval that is zero and
    returns nil; the goroutine it leaves behind panics in [rand.Int63n] on
    the first line of [processUpdates], before it serves any request. *)
Theorem negative_interval_stops_the_loop s s1 now draw steps :
  RandomizeHttpPollInterval (mgr s) = true ->
  (HttpPollInterval (mgr s) < 0)%Z ->
  Start s = Some (None, s1) ->
  processUpdates_clocked now draw steps s1 = None.
Proof.
  intros Hrand Hneg Hstart.
  destruct (Start_settings _ _ _ Hstart) as [[_ Hne]|Hset]; [done|].
  apply settings_HttpPollInterval in Hset as [Hi Hr].
  unfold processUpdates_clocked. rewrite run_bind.
  rewrite nextHttpPoll_panics; [done| |].
  - by rewrite Hr.
  - rewrite Hi. unfold default_intervals. cbn.
    destruct (Z.eqb_spec (HttpPollInterval (mgr s)) 0); lia.
Qed.

(** X24: the manager never changes what its user set.  From [Start] on,
    through any requests the loop serves, [EmptyConfig], [FilePath], the http
    settings and the poll intervals are those of the manager [Start] was
    called on, with the intervals found at zero replaced by their defaults;
    only the authoritative pointer and the fingerprint move. *)
Theorem settings_are_kept s s1 now draw steps deadline s2 :
  Start s = Some (None, s1) ->
  processUpdates_clocked now draw steps s1 = Some (deadline, s2) ->
  settings (mgr s2) = settings (default_intervals (mgr s)).
Proof.
  intros Hstart Hloop.
  destruct (Start_settings _ _ _ Hstart) as [[_ Hne]|Hset]; [done|].
  rewrite <- Hset. revert Hloop. apply keeps_bind.
  - apply keeps_nextHttpPoll.
  - intros nextHttp. apply keeps_iterations.
Qed.

(** ** Updates with any Go function *)








(** X25: [Update] with nil, or with a function that panics on the copy it
    is given, stops the loop.  The loop calls the function without a check,
    so the iteration panics after [copy]: the update is not answered and no
    later request is served. *)
Theorem bad_update_stops_the_loop s e p c c1 cerr f nextHttp clk
    (rest : list (TimedCall (C:=C))) :
  EmptyConfig (mgr s) = Some e ->
  cfg (mgr s) = Some p ->
  heap s !! p = Some c ->
  deepcopy_Copy e (Some c) = (c1, cerr) ->
  f = nil_func \/ (exists body, f = go_func body /\ body c1 = None) ->
  serve_call (Update f) s = None
  /\ iterations_on nextHttp ((Update f, clk) :: rest) s = None.
Proof.
  destruct s as [m h i d t]. cbn [mgr heap]. intros He Hm Hp Hc Hbad.
  assert (serve_call (Update f) (mkState m h i d t) = None) as Hserve.
  { unfold serve_call. do 2 step. rewrite Hm.
    step. erewrite run_copy by eassumption. cbv beta iota. rewrite run_bind.
    destruct Hbad as [->|(body & -> & Hbody)]; [done|].
    unfold call_func. step. erewrite run_load by heap. by rewrite Hbody. }
  split; [done|]. destruct clk as [now draw].
  cbn [iterations_on iteration_on]. by rewrite !run_bind, Hserve.
Qed.

(** X26: a commit that follows a failed save starts the versions again.
    An update whose write is refused leaves the authoritative configuration
    with version 0; the next update that commits reads that 0, so the new
    authoritative configuration has version 1, whatever the version was
    before the two updates. *)
Theorem commit_after_failed_save_restarts_at_1 (laws : ConfigLaws C)
    s dl1 dl2 e p c c1 cerr1 c2 bytes1 werr d1 c3 cerr3 c4 bytes2 d2 st d3 :
  EmptyConfig (mgr s) = Some e ->
  cfg (mgr s) = Some p ->
  heap s !! p = Some c ->
  deepcopy_Copy e (Some c) = (c1, cerr1) ->
  deltaFn dl1 c1 = (c2, None) ->
  deepValueEqual (SetVersion 0 c) (SetVersion 0 (ApplyDefaults c2)) = false ->
  yaml_Marshal (committed c2 (GetVersion c)) = inr bytes1 ->
  ioutil_WriteFile (FilePath (mgr s)) bytes1 (disk s) = (Some werr, d1) ->
  deepcopy_Copy e (Some (SetVersion 0 c)) = (c3, cerr3) ->
  deltaFn dl2 c3 = (c4, None) ->
  deepValueEqual (SetVersion 0 c) (SetVersion 0 (ApplyDefaults c4)) = false ->
  yaml_Marshal (committed c4 0) = inr bytes2 ->
  ioutil_WriteFile (FilePath (mgr s)) bytes2 d1 = (None, d2) ->
  os_Stat (FilePath (mgr s)) d2 = (inr st, d3) ->
  exists s1 s2 q,
    serve (Delta dl1) s = Some (tt, s1)
    /\ version_at s1 p = Some 0%Z
    /\ serve (Delta dl2) s1 = Some (tt, s2)
    /\ cfg (mgr s2) = Some q
    /\ version_at s2 q = Some 1%Z
    /\ version_at s p = Some (GetVersion c)
    /\ trace s2 = trace s ++ [EvWriteFile (FilePath (mgr s)) bytes1;
                              EvReply (Some (ErrWriteFile (FilePath (mgr s)) werr));
                              EvWriteFile (FilePath (mgr s)) bytes2;
                              EvStat (FilePath (mgr s));
                              EvReply None; EvPublish (Some q)].
Proof.
  destruct s as [m h i d t]. unfold version_at. cbn [mgr heap infos disk trace].
  intros He Hm Hp Hc1 Hd1 Hne1 Hb1 Hw1 Hc3 Hd3 Hne3 Hb2 Hw2 Hs2.
  assert (p <> length h) as Hpq by heap.
  set (h1 := <[length h:=committed c2 (GetVersion c)]>
               (<[p:=SetVersion 0 c]> (h ++ [c2]))).
  set (t1 := t ++ [EvWriteFile (FilePath m) bytes1;
                   EvReply (Some (ErrWriteFile (FilePath m) werr))]).
  assert (serve (Delta dl1) (mkState m h i d t) = Some (tt, mkState m h1 i d1 t1))
    as Hrun1.
  { erewrite run_serve_delta by eassumption.
    rewrite (run_save_next p c (length h) c2) by (first [done | heap]).
    rewrite (run_writeToDisk (length h) (committed c2 (GetVersion c))) by heap.
    rewrite Hb1, Hw1. cbn. unfold t1. by rewrite <- app_assoc. }
  assert (h1 !! p = Some (SetVersion 0 c)) as Hp1 by (unfold h1; heap).
  assert (p <> length h1) as Hpq1.
  { apply lookup_lt_Some in Hp. unfold h1.
    rewrite !length_insert, length_app. cbn. lia. }
  clearbody h1.
  assert (SetVersion 0 (SetVersion 0 c) = SetVersion 0 c) as Hzero
    by apply SetVersion_SetVersion.
  assert (serve (Delta dl2) (mkState m h1 i d1 t1)
          = Some (tt, mkState (with_cfg (Some (length h1))
                                 (with_fileInfo (Some (length i)) m))
                        (<[length h1:=committed c4 0]>
                           (<[p:=SetVersion 0 c]> (h1 ++ [c4])))
                        (i ++ [st]) d3
                        (t1 ++ [EvWriteFile (FilePath m) bytes2; EvStat (FilePath m);
                                EvReply None; EvPublish (Some (length h1))])))
    as Hrun2.
  { erewrite (run_serve_delta dl2 e p (SetVersion 0 c) c3 cerr3 c4 None)
      by eassumption.
    rewrite (run_save_next p (SetVersion 0 c) (length h1) c4);
      [| done | done | by apply lookup_snoc_old | by apply lookup_snoc_new
       | by rewrite Hzero].
    rewrite GetVersion_SetVersion, Hzero.
    rewrite (run_writeToDisk (length h1) (committed c4 0)) by heap.
    rewrite Hb2, Hw2, Hs2. cbn. by rewrite <- !app_assoc. }
  do 2 eexists. exists (length h1).
  split; [exact Hrun1|]. cbn [mgr heap infos disk trace].
  rewrite Hp1, Hp. cbn [fmap option_fmap option_map]. rewrite GetVersion_SetVersion.
  split; [done|]. split; [exact Hrun2|].
  cbn [mgr heap infos disk trace cfg with_cfg].
  assert (<[length h1:=committed c4 0]> (<[p:=SetVersion 0 c]> (h1 ++ [c4]))
            !! length h1 = Some (committed c4 0)) as -> by heap.
  cbn [fmap option_fmap option_map].
  unfold committed at 1. rewrite GetVersion_SetVersion.
  repeat split. unfold t1. by rewrite <- !app_assoc.
Qed.

End Facts.

(** * The test configuration on the simulated platform *)

Lemma TestCfg_laws : ConfigLaws TestCfg.t.
Proof. split; [done|done|by intros []]. Qed.

Ltac by_computation :=
  first [ reflexivity | unfold GoInt.min_int, GoInt.max_int; lia | cbv; lia
        | cbv; discriminate ].

(** ** C6 *)

(** A poll right after [Start]: the file holds what the manager wrote, and
    the load reports no change. *)
Lemma reload_same_content_witness :
  exists s',
    reloadFromDisk Sim.started_fresh = Some ((false, None), s')
    /\ mgr s' = mgr Sim.started_fresh.
Proof.
  edestruct (reload_same_content Sim.started_fresh) as (s' & Hrun & _ & Hmgr & _);
    [by_computation .. |].
  exists s'. by split.
Defined.

(** ** C1 and C10 *)

(** Version 3 in memory, version 5 in the file: the load answers the
    mismatch and the file is written again. *)
Lemma reload_rejects_other_version_witness :
  exists s',
    reloadFromDisk Sim.conflict = Some ((false, Some (ErrVersionMismatch 3 5)), s')
    /\ cfg (mgr s') = cfg (mgr Sim.conflict).
Proof.
  edestruct (reload_rejects_other_version Sim.conflict)
    as (werr & s' & _ & Hrun & Hcfg & _); [by_computation .. |].
  exists s'. by split.
Defined.

(** The same on a file system that refuses the write: the load still
    answers the mismatch, and the file still holds version 5. *)
Lemma reload_drops_overwrite_error_witness :
  exists s',
    reloadFromDisk Sim.conflict_read_only
    = Some ((false, Some (ErrVersionMismatch 3 5)), s')
    /\ disk s' = disk Sim.conflict_read_only.
Proof.
  edestruct (reload_drops_overwrite_error Sim.conflict_read_only)
    as (_ & Hrun & _ & Hfail); [by_computation .. |].
  edestruct Hfail as (s' & Hw & Hdisk); [by_computation .. |].
  exists s'. split; [exact (Hrun _ _ Hw)|]. by rewrite Hdisk.
Defined.

(** ** C3 *)

(** The candidate is a copy of the authoritative configuration, as in
    [Start] after a load: the save is a no-op and the authoritative version
    stays 1. *)
Lemma save_same_content_is_noop_witness :
  exists s',
    saveToDiskAndUpdate 2 Sim.with_candidate = Some ((false, None), s')
    /\ trace s' = trace Sim.with_candidate
    /\ version_at s' 1 = Some 1%Z.
Proof.
  edestruct (save_same_content_is_noop TestCfg_laws Sim.with_candidate 1
               (TestCfg.mk 1 (Some (TestCfg.mkNested "" 55))) 2)
    as (s' & Hrun & Htrace & _ & _ & _ & Hv & _); [by_computation .. |].
  exists s'. by repeat split.
Defined.

(** C3 as stated fails: the candidate at address 2 is equal to the
    authoritative configuration at address 1 once defaults are applied and
    both versions are zeroed, its version is 1 before the save, and no run of
    the save reports no change with both versions as they were: the
    candidate's version is 0 afterwards. *)
Lemma save_noop_forgets_candidate_version :
  cfg (mgr Sim.with_candidate) = Some 1
  /\ (exists c u,
        heap Sim.with_candidate !! 1 = Some c
        /\ heap Sim.with_candidate !! 2 = Some u
        /\ deepValueEqual (SetVersion 0 c) (SetVersion 0 (ApplyDefaults u)) = true)
  /\ version_at Sim.with_candidate 2 = Some 1%Z
  /\ (exists s',
        saveToDiskAndUpdate 2 Sim.with_candidate = Some ((false, None), s')
        /\ version_at s' 2 = Some 0%Z)
  /\ ~ (exists s',
          saveToDiskAndUpdate 2 Sim.with_candidate = Some ((false, None), s')
          /\ version_at s' 1 = version_at Sim.with_candidate 1
          /\ version_at s' 2 = version_at Sim.with_candidate 2).
Proof.
  split; [reflexivity|]. split; [by eexists _, _|]. split; [reflexivity|].
  split; [by eexists|].
  intros (s' & Hrun & _ & Hq). vm_compute in Hrun. injection Hrun as <-.
  vm_compute in Hq. discriminate.
Qed.

(** ** C4 *)

(** An update on the configuration of version 1: the candidate is
    committed with version 2. *)
Lemma save_commits_next_version_witness :
  exists s',
    saveToDiskAndUpdate 2 Sim.candidate_fresh = Some ((true, None), s')
    /\ cfg (mgr s') = Some 2
    /\ version_at s' 2 = Some 2%Z.
Proof.
  edestruct (save_commits_next_version TestCfg_laws Sim.candidate_fresh 2
               (TestCfg.mk 1 (Some (TestCfg.mkNested "4" 4))) 1%Z)
    as (Hcommit & _).
  - reflexivity.
  - split; [by_computation|]. eexists. by repeat split.
  - reflexivity.
  - reflexivity.
  - edestruct Hcommit as (s' & Hrun & Hcfg & _ & _ & Hv & _); [reflexivity|].
    exists s'. repeat split; [done..|]. apply Hv. by_computation.
Defined.

(** C4 as stated fails at the largest [int]: the candidate differs from
    the authoritative configuration, whose version is 2^63 - 1, the write
    succeeds, the candidate becomes authoritative, and its version is
    -2^63: not the previous version plus 1, and smaller than the previous
    version. *)
Lemma save_wraps_version_at_max_int :
  cfg (mgr Sim.candidate_at_max) = Some 0
  /\ version_at Sim.candidate_at_max 0 = Some GoInt.max_int
  /\ (exists u, heap Sim.candidate_at_max !! 2 = Some u
                /\ differs Sim.candidate_at_max 2 u GoInt.max_int)
  /\ exists s',
       saveToDiskAndUpdate 2 Sim.candidate_at_max = Some ((true, None), s')
       /\ cfg (mgr s') = Some 2
       /\ version_at s' 2 = Some GoInt.min_int
       /\ version_at s' 2 <> Some (GoInt.max_int + 1)%Z
       /\ (GoInt.min_int < GoInt.max_int)%Z.
Proof.
  split; [reflexivity|]. split; [reflexivity|]. split.
  { eexists. split; [reflexivity|]. split; [by_computation|].
    eexists. by repeat split. }
  eexists. split; [vm_compute; reflexivity|].
  split; [reflexivity|]. split; [reflexivity|]. split; [|reflexivity].
  vm_compute. discriminate.
Qed.

(** ** C5 *)

(** A delta that changes its argument and then fails: the reply is its
    error and the authoritative configuration is as before. *)
Lemma update_with_failing_delta_witness :
  exists s',
    serve (Delta Sim.failing_delta) Sim.started_fresh = Some (tt, s')
    /\ trace s' = trace Sim.started_fresh ++ [EvReply (Some (ErrExternal "delta failed"))]
    /\ mgr s' = mgr Sim.started_fresh
    /\ heap s' !! 1 = heap Sim.started_fresh !! 1.
Proof.
  edestruct (update_with_failing_delta Sim.started_fresh Sim.failing_delta)
    as (s' & Hrun & Htrace & Hmgr & Hp & _); [by_computation .. |].
  exists s'. by repeat split.
Defined.

(** ** C8 *)

(** [Start] on a path with no file: the stat fails, and the defaulted
    configuration of version 1 is written, made authoritative and
    published. *)
Lemma Start_after_failed_load_witness :
  exists s',
    Start (Sim.boot Sim.noFile) = Some (None, s')
    /\ cfg (mgr s') = Some 1
    /\ heap s' !! 1 = Some (TestCfg.mk 1 (Some (TestCfg.mkNested "" TestCfg.FIXED_I))).
Proof.
  edestruct (Start_after_failed_load TestCfg_laws (Sim.boot Sim.noFile))
    as (_ & werr & s2 & Hw & Hq & Hrun & Hok);
    [reflexivity | discriminate | reflexivity | vm_compute; reflexivity |].
  edestruct Hok as (-> & _ & _); [vm_compute; reflexivity .. |].
  eexists. split; [exact Hrun|]. split; [reflexivity|].
  exact Hq.
Defined.

(** ** C9 *)

(** On a platform whose copier fails, an update whose delta sets [N]: the
    delta ran on the empty object the copier left, and the result is
    committed with version 2 and published. *)
Lemma update_after_failed_copy_witness :
  exists s',
    serve (plat := Sim.platform true) (Delta (Sim.set_N "4" 4)) Sim.started_fresh
    = Some (tt, s')
    /\ cfg (mgr s') = Some 2
    /\ heap s' !! 2 = Some (TestCfg.mk 2 (Some (TestCfg.mkNested "4" 4))).
Proof.
  edestruct (update_after_failed_copy (plat := Sim.platform true)
               Sim.started_fresh (Sim.set_N "4" 4))
    as (_ & Hcommit); [by_computation .. |].
  edestruct Hcommit as (s' & Hrun & Hcfg & Hq & _); [by_computation .. |].
  exists s'. by repeat split.
Defined.

(** ** C2 *)

(** C2 fails on the code.  The file system refuses writes and an update
    changes the configuration: the save returns the write error and the
    manager keeps pointing at the old configuration, but the version of that
    configuration, 1 before the save, is 0 after it ([save_outcome] has the
    general statement). *)
Lemma save_failure_zeroes_authoritative_version :
  cfg (mgr Sim.candidate_read_only) = Some 1
  /\ version_at Sim.candidate_read_only 1 = Some 1%Z
  /\ exists s',
       saveToDiskAndUpdate 2 Sim.candidate_read_only
       = Some ((false,
                Some (ErrWriteFile Sim.path (ErrExternal "read-only file system"))),
               s')
       /\ cfg (mgr s') = Some 1
       /\ version_at s' 1 = Some 0%Z.
Proof.
  split; [reflexivity|]. split; [reflexivity|].
  eexists. split; [vm_compute; reflexivity|]. by split.
Qed.

(** ** C7 *)

(** C7 fails on the code.  A poll right after [Start]: the file is as the
    manager left it.  [hasChangedOnDisk] finds size and modification time
    unchanged, and the fingerprint taken by the load equals the one the
    manager holds; still the load reads the file ([poll_always_reads] has the
    general statement). *)
Lemma reload_reads_unchanged_file :
  (exists s', hasChangedOnDisk Sim.started_fresh = Some (false, s'))
  /\ exists s',
       reloadFromDisk Sim.started_fresh = Some ((false, None), s')
       /\ infos s' !! 1 = infos s' !! 0
       /\ fileInfo (mgr Sim.started_fresh) = Some 0
       /\ trace s' = trace Sim.started_fresh ++ [EvStat Sim.path; EvReadFile Sim.path].
Proof.
  split; [eexists; vm_compute; reflexivity|].
  eexists. split; [vm_compute; reflexivity|]. by repeat split.
Qed.

(** * More of the package, on the simulated platform *)

Ltac by_lookup :=
  first [ by_computation | by eexists | intros ? [= <-]; by eexists ].

Ltac by_evaluation := first [ vm_compute; reflexivity | by_computation ].

Lemma running_started_fresh : running Sim.started_fresh.
Proof.
  split; [by eexists|]. split; [|cbv; lia].
  exists 1. split; [reflexivity|by eexists].
Qed.

(** A file that carries the largest version is taken as it is. *)
Lemma first_load_takes_the_file_witness :
  exists s' q,
    reloadFromDisk (Sim.boot Sim.max_version_file) = Some ((true, None), s')
    /\ cfg (mgr s') = Some q
    /\ version_at s' q = Some GoInt.max_int.
Proof.
  edestruct (first_load_takes_the_file (Sim.boot Sim.max_version_file))
    as (s' & q & k & Hrun & Hcfg & Hq & _); [by_computation .. |].
  exists s', q. split; [done|]. split; [done|].
  unfold version_at. by rewrite Hq.
Defined.

(** The file edited from outside at the same version is committed. *)
Lemma poll_commits_changed_content_witness :
  exists s' q,
    serve FilePoll Sim.externally_edited = Some (tt, s')
    /\ cfg (mgr s') = Some q
    /\ heap s' !! q = Some (TestCfg.mk 1 (Some (TestCfg.mkNested "3" 3))).
Proof.
  edestruct (poll_commits_changed_content Sim.externally_edited)
    as (s' & q & Hrun & _ & Hcfg & Hq & _); [by_computation .. |].
  by exists s', q.
Defined.

(** The file removed from outside: the poll logs and goes on. *)
Lemma poll_absorbs_load_errors_witness :
  exists s',
    serve FilePoll Sim.file_removed = Some (tt, s')
    /\ mgr s' = mgr Sim.file_removed.
Proof.
  edestruct (poll_absorbs_load_errors Sim.file_removed)
    as (Hstat & _); [by_computation .. |].
  edestruct Hstat as (s' & Hrun & Hmgr & _); [by_computation |].
  by exists s'.
Defined.

(** A delta that sets what is already there. *)
Lemma update_without_change_witness :
  exists s',
    serve (Delta (Sim.set_N "" 55)) Sim.started_fresh = Some (tt, s')
    /\ trace s' = trace Sim.started_fresh ++ [EvReply None].
Proof.
  edestruct (update_without_change TestCfg_laws Sim.started_fresh (Sim.set_N "" 55))
    as (s' & Hrun & Htrace & _); [by_computation .. |].
  by exists s'.
Defined.

(** An update on a file system that refuses the write. *)
Lemma update_with_failing_save_witness :
  exists s',
    serve (Delta (Sim.set_N "4" 4)) Sim.started_read_only = Some (tt, s')
    /\ mgr s' = mgr Sim.started_read_only.
Proof.
  edestruct (update_with_failing_save Sim.started_read_only (Sim.set_N "4" 4))
    as (_ & Hwrite & _); [by_computation .. |].
  edestruct Hwrite as (s' & Hrun & _ & Hmgr & _); [by_computation .. |].
  by exists s'.
Defined.

(** The configuration published by [Start] has version 0 after the first
    update. *)
Lemma update_zeroes_published_version_witness :
  exists s',
    serve (Delta (Sim.set_N "4" 4)) Sim.started_fresh = Some (tt, s')
    /\ version_at Sim.started_fresh 1 = Some 1%Z
    /\ version_at s' 1 = Some 0%Z.
Proof.
  edestruct (update_zeroes_published_version TestCfg_laws Sim.started_fresh
               (Sim.set_N "4" 4))
    as (s' & q & Hrun & _ & _ & _ & Hv & _); [by_computation .. |].
  by exists s'.
Defined.

Lemma save_of_the_authoritative_object_witness :
  exists s',
    saveToDiskAndUpdate 1 Sim.started_fresh = Some ((false, None), s')
    /\ trace s' = trace Sim.started_fresh.
Proof.
  edestruct (save_of_the_authoritative_object TestCfg_laws Sim.started_fresh 1)
    as (s' & Hrun & _ & _ & _ & _ & Htrace); [by_computation .. |].
  by exists s'.
Defined.

(** The first save on a platform that refuses every stat. *)
Lemma save_with_failing_stat_witness :
  exists s',
    saveToDiskAndUpdate (plat := Sim.blind) 0 Sim.first_save
    = Some ((false, Some (ErrStatFile Sim.path (ErrExternal "permission denied"))), s')
    /\ fileInfo (mgr s') = None.
Proof.
  edestruct (save_with_failing_stat (plat := Sim.blind) Sim.first_save 0
               TestCfg.empty 0%Z)
    as (s' & Hrun & _ & Hfi & _); [by_computation .. |].
  by exists s'.
Defined.

Lemma copy_makes_a_new_object_witness :
  exists q cerr s',
    copy (Some 1) Sim.started_fresh = Some ((q, cerr), s')
    /\ heap Sim.started_fresh !! q = None
    /\ mgr s' = mgr Sim.started_fresh.
Proof.
  edestruct (copy_makes_a_new_object Sim.started_fresh TestCfg.empty (Some 1))
    as (q & cerr & s' & x & Hrun & Hnew & _ & _ & _ & _ & Hmgr & _);
    [by_lookup .. |].
  by exists q, cerr, s'.
Defined.

Lemma writeToDisk_takes_a_fingerprint_witness :
  exists s' k,
    writeToDisk 1 Sim.started_fresh = Some (None, s')
    /\ fileInfo (mgr s') = Some k
    /\ infos Sim.started_fresh !! k = None.
Proof.
  edestruct (writeToDisk_takes_a_fingerprint Sim.started_fresh 1)
    as (s' & k & Hrun & Hfi & Hnew & _); [by_computation .. |].
  by exists s', k.
Defined.

(** Right after [Start] the file is as the fingerprint says. *)
Lemma hasChangedOnDisk_compares_size_and_time_witness :
  exists changed s',
    hasChangedOnDisk Sim.started_fresh = Some (changed, s')
    /\ mgr s' = mgr Sim.started_fresh.
Proof.
  edestruct (hasChangedOnDisk_compares_size_and_time Sim.started_fresh 0)
    as (_ & Hstat); [by_computation .. |].
  edestruct Hstat as (changed & s' & Hrun & _ & Hmgr & _); [by_computation |].
  by exists changed, s'.
Defined.

Lemma save_then_poll_is_silent_witness :
  exists s1 s2,
    saveToDiskAndUpdate 2 Sim.candidate_fresh = Some ((true, None), s1)
    /\ serve FilePoll s1 = Some (tt, s2)
    /\ mgr s2 = mgr s1.
Proof.
  edestruct (save_then_poll_is_silent Sim.candidate_fresh TestCfg.empty 2
               (TestCfg.mk 1 (Some (TestCfg.mkNested "4" 4))) 1%Z)
    as (s1 & s2 & Hsave & Hpoll & Hmgr & _).
  - reflexivity.
  - cbv; lia.
  - reflexivity.
  - split; [by_computation|]. eexists. by repeat split.
  - reflexivity.
  - reflexivity.
  - reflexivity.
  - reflexivity.
  - reflexivity.
  - reflexivity.
  - reflexivity.
  - by exists s1, s2.
Defined.




(** On the platform whose copier fails. *)
Lemma Start_initial_update_failure_witness :
  exists s',
    Start (plat := Sim.platform true) (Sim.boot Sim.max_version_file)
    = Some (Some (ErrInitialUpdate (ErrExternal "Unable to marshal src")), s')
    /\ cfg (mgr s') = Some 0.
Proof.
  edestruct (Start_initial_update_failure (plat := Sim.platform true)
               (Sim.boot Sim.max_version_file))
    as (Hcopy & _); [reflexivity | discriminate | by_computation .. |].
  edestruct Hcopy as (s' & Hrun & Hcfg & _); [by_computation |].
  by exists s'.
Defined.



Lemma one_publication_and_one_write_per_request_witness :
  exists deadline s',
    processUpdates_clocked 0 7
      [(Delta (Sim.set_N "4" 4), (1, 1)%Z); (FilePoll, (2, 2)%Z);
       (Delta Sim.failing_delta, (3, 3)%Z)]
      Sim.started_fresh = Some (deadline, s')
    /\ count is_publish (trace s') <= 4.
Proof.
  destruct (one_publication_and_one_write_per_request 0 7
              [(Delta (Sim.set_N "4" 4), (1, 1)%Z); (FilePoll, (2, 2)%Z);
               (Delta Sim.failing_delta, (3, 3)%Z)]
              Sim.started_fresh running_started_fresh)
    as (deadline & s' & Hrun & Hpub & _); [discriminate|].
  exists deadline, s'. split; [exact Hrun|]. exact Hpub.
Defined.


(** One minute, randomized: between 30 and 90 seconds from now. *)
Lemma nextHttpPoll_deadline_witness :
  exists deadline,
    nextHttpPoll 0 123456789012345 (Sim.jittery minute) = Some deadline
    /\ (30 * second <= deadline < 90 * second)%Z.
Proof.
  destruct (nextHttpPoll_deadline 0 123456789012345 (Sim.jittery minute))
    as (_ & Hjitter).
  destruct Hjitter as (deadline & Hrun & Hbounds); [by_computation .. |].
  exists deadline. split; [done|]. exact Hbounds.
Defined.

Lemma nextHttpPoll_after_defaults_witness :
  nextHttpPoll 0 7 (default_intervals (Sim.jittery (-5))) = None.
Proof.
  destruct (nextHttpPoll_after_defaults 0 7 (Sim.jittery (-5))) as (Hneg & _);
    [reflexivity|].
  apply Hneg. reflexivity.
Defined.

(** A randomized interval of -5 nanoseconds: [Start] returns nil and the
    loop stops on its first line. *)
Lemma negative_interval_stops_the_loop_witness :
  exists s1,
    Start Sim.boot_negative = Some (None, s1)
    /\ processUpdates_clocked 0 7 [(FilePoll, (1, 1)%Z)] s1 = None.
Proof.
  eexists. split; [vm_compute; reflexivity|].
  eapply (negative_interval_stops_the_loop Sim.boot_negative);
    [reflexivity | reflexivity | vm_compute; reflexivity].
Defined.

Lemma settings_are_kept_witness :
  exists s1 deadline s2,
    Start (Sim.boot Sim.noFile) = Some (None, s1)
    /\ processUpdates_clocked 0 7
         [(Delta (Sim.set_N "4" 4), (1, 1)%Z); (HttpPoll, (2, 2)%Z)] s1
       = Some (deadline, s2)
    /\ FilePath (mgr s2) = Sim.path
    /\ HttpPollInterval (mgr s2) = minute.
Proof.
  assert (exists s1 deadline s2,
             Start (Sim.boot Sim.noFile) = Some (None, s1)
             /\ processUpdates_clocked 0 7
                  [(Delta (Sim.set_N "4" 4), (1, 1)%Z); (HttpPoll, (2, 2)%Z)] s1
                = Some (deadline, s2)) as (s1 & deadline & s2 & Hstart & Hloop)
    by (do 3 eexists; split; [vm_compute; reflexivity|vm_compute; reflexivity]).
  pose proof (settings_are_kept _ _ _ _ _ _ _ Hstart Hloop) as Hset.
  exists s1, deadline, s2. split; [exact Hstart|]. split; [exact Hloop|].
  split.
  - exact (f_equal FilePath Hset).
  - exact (f_equal HttpPollInterval Hset).
Defined.

(** [Update(nil)] on the manager right after [Start]. *)
Lemma bad_update_stops_the_loop_witness :
  serve_call (Update nil_func) Sim.started_fresh = None
  /\ iterations_on 0 [(Update nil_func, (1, 1)%Z); (FileTimer, (2, 2)%Z)]
       Sim.started_fresh = None.
Proof.
  eapply (bad_update_stops_the_loop Sim.started_fresh);
    [by_evaluation .. | by left].
Defined.

(** Versions 2 and 3 committed, a refused write, and the next commit. *)
Lemma commit_after_failed_save_restarts_at_1_witness :
  exists s1 s2 p q,
    cfg (mgr Sim.before_refusal) = Some p
    /\ version_at Sim.before_refusal p = Some 3%Z
    /\ serve (plat := Sim.recovering) (Delta (Sim.set_N "6" 6)) Sim.before_refusal
       = Some (tt, s1)
    /\ serve (plat := Sim.recovering) (Delta (Sim.set_N "7" 7)) s1 = Some (tt, s2)
    /\ cfg (mgr s2) = Some q
    /\ version_at s2 q = Some 1%Z.
Proof.
  edestruct (commit_after_failed_save_restarts_at_1 (plat := Sim.recovering)
               TestCfg_laws Sim.before_refusal (Sim.set_N "6" 6) (Sim.set_N "7" 7))
    as (s1 & s2 & q & Hrun1 & _ & Hrun2 & Hq & Hv & Hold & _);
    [by_evaluation .. |].
  eexists s1, s2, _, q. split; [reflexivity|]. split; [exact Hold|].
  split; [exact Hrun1|]. split; [exact Hrun2|]. split; [exact Hq|]. exact Hv.
Defined.
